(** * serles/backends/dane.py: the DANE issuance backend

    A shallow embedding of [DaneBackend] (ephemeral CA, leaf signing, PKCS#7
    chain assembly through [openssl], TLSA digest, SendGrid notification) and
    of the parts of the Python standard library and of the [cryptography]
    package that it calls, followed by the properties of the issuance
    pipeline. *)

From Stdlib Require Import ZArith List String Ascii Lia.
From Stdlib.Strings Require Import Byte.
From stdpp Require Import base option gmap strings list fin_maps.

Import ListNotations.
Local Open Scope string_scope.
Local Open Scope list_scope.
Local Open Scope Z_scope.

Set Default Proof Using "Type".
Set Warnings "-register-all,-abstract-large-number".

(* ===================================================================== *)
(** ** Python values used by the backend *)
(* ===================================================================== *)

(** [bytes] objects. *)
Abbreviation bytes := (list byte).

Definition Z_of_byte (b : byte) : Z := Z.of_N (Byte.to_N b).

Definition byte_of_Z (z : Z) : byte :=
  match Byte.of_N (Z.to_N (z mod 256)) with
  | Some b => b
  | None => x00
  end.

(** [int.from_bytes(bs, "big")]. *)
Definition int_from_bytes_big (bs : bytes) : Z :=
  fold_left (fun acc b => acc * 256 + Z_of_byte b) bs 0.

(** [z.to_bytes(n, "big")] for [0 <= z < 256^n]. *)
Fixpoint int_to_bytes_big (n : nat) (z : Z) : bytes :=
  match n with
  | O => []
  | S n' => int_to_bytes_big n' (z / 256) ++ [byte_of_Z z]
  end.

(** [s.encode("ascii")] for the ASCII strings of the model. *)
Definition encode (s : string) : bytes := list_byte_of_string s.

(* ===================================================================== *)
(** ** hashlib: SHA-256 (FIPS 180-4) and [hexdigest] *)
(* ===================================================================== *)

Module hashlib.

Definition w32 : Z := 2 ^ 32.
Definition ones32 : Z := w32 - 1.

Definition add32 (x y : Z) : Z := (x + y) mod w32.
Definition not32 (x : Z) : Z := Z.lxor x ones32.
Definition SHR (n x : Z) : Z := Z.shiftr x n.
Definition ROTR (n x : Z) : Z :=
  Z.lor (Z.shiftr x n) (Z.land (Z.shiftl x (32 - n)) ones32).

Definition Ch (x y z : Z) : Z := Z.lxor (Z.land x y) (Z.land (not32 x) z).
Definition Maj (x y z : Z) : Z :=
  Z.lxor (Z.lxor (Z.land x y) (Z.land x z)) (Z.land y z).
Definition bsig0 (x : Z) : Z := Z.lxor (Z.lxor (ROTR 2 x) (ROTR 13 x)) (ROTR 22 x).
Definition bsig1 (x : Z) : Z := Z.lxor (Z.lxor (ROTR 6 x) (ROTR 11 x)) (ROTR 25 x).
Definition ssig0 (x : Z) : Z := Z.lxor (Z.lxor (ROTR 7 x) (ROTR 18 x)) (SHR 3 x).
Definition ssig1 (x : Z) : Z := Z.lxor (Z.lxor (ROTR 17 x) (ROTR 19 x)) (SHR 10 x).

(** Round constants, four per row. *)
Definition K256 : list Z :=
  [ 0x428a2f98; 0x71374491; 0xb5c0fbcf; 0xe9b5dba5 ] ++
  [ 0x3956c25b; 0x59f111f1; 0x923f82a4; 0xab1c5ed5 ] ++
  [ 0xd807aa98; 0x12835b01; 0x243185be; 0x550c7dc3 ] ++
  [ 0x72be5d74; 0x80deb1fe; 0x9bdc06a7; 0xc19bf174 ] ++
  [ 0xe49b69c1; 0xefbe4786; 0x0fc19dc6; 0x240ca1cc ] ++
  [ 0x2de92c6f; 0x4a7484aa; 0x5cb0a9dc; 0x76f988da ] ++
  [ 0x983e5152; 0xa831c66d; 0xb00327c8; 0xbf597fc7 ] ++
  [ 0xc6e00bf3; 0xd5a79147; 0x06ca6351; 0x14292967 ] ++
  [ 0x27b70a85; 0x2e1b2138; 0x4d2c6dfc; 0x53380d13 ] ++
  [ 0x650a7354; 0x766a0abb; 0x81c2c92e; 0x92722c85 ] ++
  [ 0xa2bfe8a1; 0xa81a664b; 0xc24b8b70; 0xc76c51a3 ] ++
  [ 0xd192e819; 0xd6990624; 0xf40e3585; 0x106aa070 ] ++
  [ 0x19a4c116; 0x1e376c08; 0x2748774c; 0x34b0bcb5 ] ++
  [ 0x391c0cb3; 0x4ed8aa4a; 0x5b9cca4f; 0x682e6ff3 ] ++
  [ 0x748f82ee; 0x78a5636f; 0x84c87814; 0x8cc70208 ] ++
  [ 0x90befffa; 0xa4506ceb; 0xbef9a3f7; 0xc67178f2 ].

(** The chaining value: eight 32-bit words. *)
Record state := State {
  sa : Z; sb : Z; sc : Z; sd : Z; se : Z; sf : Z; sg : Z; sh : Z
}.

Definition initial : state :=
  State 0x6a09e667 0xbb67ae85 0x3c6ef372 0xa54ff53a
        0x510e527f 0x9b05688c 0x1f83d9ab 0x5be0cd19.

(** Padding: the byte 0x80, zeros up to 56 mod 64, the bit length on 8 bytes. *)
Definition pad (msg : bytes) : bytes :=
  let len := Z.of_nat (length msg) in
  msg ++ [x80] ++ repeat x00 (Z.to_nat ((55 - len) mod 64))
      ++ int_to_bytes_big 8 (8 * len).

Fixpoint chunks (k : nat) (fuel : nat) (bs : bytes) : list bytes :=
  match fuel, bs with
  | O, _ | _, [] => []
  | S fuel', _ => firstn k bs :: chunks k fuel' (skipn k bs)
  end.

Definition words_of_block (blk : bytes) : list Z :=
  map int_from_bytes_big (chunks 4 16 blk).

(** Message schedule: W_t for t < 64. *)
Definition extend (w : list Z) (t : nat) : list Z :=
  let at_ i := nth (t - i) w 0 in
  w ++ [add32 (add32 (ssig1 (at_ 2%nat)) (at_ 7%nat))
              (add32 (ssig0 (at_ 15%nat)) (at_ 16%nat))].

Definition schedule (blk : bytes) : list Z :=
  fold_left extend (seq 16 48) (words_of_block blk).

Definition round (s : state) (kw : Z * Z) : state :=
  let t1 := add32 (add32 (add32 (sh s) (bsig1 (se s)))
                         (add32 (Ch (se s) (sf s) (sg s)) (fst kw))) (snd kw) in
  let t2 := add32 (bsig0 (sa s)) (Maj (sa s) (sb s) (sc s)) in
  State (add32 t1 t2) (sa s) (sb s) (sc s) (add32 (sd s) t1) (se s) (sf s) (sg s).

Definition compress (s : state) (blk : bytes) : state :=
  let r := fold_left round (combine K256 (schedule blk)) s in
  State (add32 (sa s) (sa r)) (add32 (sb s) (sb r))
        (add32 (sc s) (sc r)) (add32 (sd s) (sd r))
        (add32 (se s) (se r)) (add32 (sf s) (sf r))
        (add32 (sg s) (sg r)) (add32 (sh s) (sh r)).

Definition output (s : state) : bytes :=
  flat_map (int_to_bytes_big 4)
           [sa s; sb s; sc s; sd s; se s; sf s; sg s; sh s].

(** [hashlib.sha256(data).digest()]. *)
Definition sha256 (data : bytes) : bytes :=
  let padded := pad data in
  output (fold_left compress (chunks 64 (length padded) padded) initial).

Definition hexchars : string := "0123456789abcdef".

Definition hexdigit (n : Z) : ascii :=
  match String.get (Z.to_nat n) hexchars with
  | Some c => c
  | None => "0"%char
  end.

Fixpoint hexlify (bs : bytes) : string :=
  match bs with
  | [] => EmptyString
  | b :: bs' =>
      String (hexdigit (Z_of_byte b / 16))
             (String (hexdigit (Z_of_byte b mod 16)) (hexlify bs'))
  end.

(** [hashlib.sha256(data).hexdigest()]. *)
Definition sha256_hexdigest (data : bytes) : string := hexlify (sha256 data).

End hashlib.

(* ===================================================================== *)
(** ** Exceptions, printed values, JSON *)
(* ===================================================================== *)

(** The subclasses of [Exception] that the calls of the backend can raise.
    Signals outside [Exception] ([KeyboardInterrupt], [SystemExit]) are not
    failures of a pipeline stage and are not part of the model. *)
Inductive exn : Type :=
| ValueError (msg : string)
| TypeError (msg : string)
| KeyError (key : string)
| OSError (msg : string)
| FileNotFoundError (path : string)
| FileExistsError (msg : string)
| UnsupportedAlgorithm (msg : string)
| RequestException (msg : string).

(** What a statement computes: a value, or a raised exception. *)
Inductive outcome (A : Type) : Type :=
| Returned (a : A)
| Raised (e : exn).
Arguments Returned {A} a.
Arguments Raised {A} e.

Definition obind {A B} (o : outcome A) (f : A -> outcome B) : outcome B :=
  match o with
  | Returned a => f a
  | Raised e => Raised e
  end.

(** A list comprehension [[f(x) for x in xs]] whose body may raise. *)
Fixpoint comprehension {A B} (f : A -> outcome B) (xs : list A) : outcome (list B) :=
  match xs with
  | [] => Returned []
  | x :: xs' =>
      obind (f x) (fun y => obind (comprehension f xs') (fun ys => Returned (y :: ys)))
  end.

(** The arguments of a [print] call. *)
Inductive pyval : Type :=
| PyStr (s : string)
| PyBytes (b : bytes)
| PyInt (z : Z)
| PyStrList (l : list string)
| PyExn (e : exn).

(** The [json=] payload of a request. *)
Inductive json : Type :=
| JString (s : string)
| JNumber (z : Z)
| JArray (items : list json)
| JObject (fields : list (string * json)).

(* ===================================================================== *)
(** ** cryptography.x509: names, extensions, certificates *)
(* ===================================================================== *)

Inductive NameOID : Type :=
| COMMON_NAME
| ORGANIZATION_NAME
| ORGANIZATIONAL_UNIT_NAME.

Record NameAttribute := mkNameAttribute {
  na_oid : NameOID;
  na_value : string
}.

(** [x509.Name]: the attributes in the order given. *)
Abbreviation Name := (list NameAttribute).

Inductive GeneralName : Type :=
| DNSName (value : string).

Inductive ExtensionType : Type :=
| SubjectAlternativeName (general_names : list GeneralName)
| BasicConstraints (ca : bool) (path_length : option Z).

Inductive ExtensionOID : Type :=
| SUBJECT_ALTERNATIVE_NAME
| BASIC_CONSTRAINTS.

Definition extension_oid (e : ExtensionType) : ExtensionOID :=
  match e with
  | SubjectAlternativeName _ => SUBJECT_ALTERNATIVE_NAME
  | BasicConstraints _ _ => BASIC_CONSTRAINTS
  end.

Record Extension := mkExtension {
  ext_value : ExtensionType;
  ext_critical : bool
}.

(** [san.get_values_for_type(x509.DNSName)]. *)
Definition get_values_for_type_DNSName (names : list GeneralName) : list string :=
  map (fun g => match g with DNSName v => v end) names.

Inductive HashAlgorithm : Type :=
| SHA256.

(** [datetime.datetime] (naive, UTC) and [datetime.timedelta], both counted in
    microseconds, the resolution of the two classes. *)
Abbreviation datetime := Z.
Abbreviation timedelta := Z.

Section Certificates.
Variable PK : Type.

(** The to-be-signed part of a certificate. *)
Record TBSCertificate := mkTBS {
  tbs_subject : Name;
  tbs_issuer : Name;
  tbs_public_key : PK;
  tbs_serial_number : Z;
  tbs_not_valid_before : datetime;
  tbs_not_valid_after : datetime;
  tbs_extensions : list Extension
}.

Record Certificate := mkCertificate {
  tbs_certificate : TBSCertificate;
  signature_hash_algorithm : HashAlgorithm;
  signature : bytes
}.

(** [x509.CertificateBuilder]: every setter returns a new builder. *)
Record CertificateBuilder := mkBuilder {
  b_issuer_name : option Name;
  b_subject_name : option Name;
  b_public_key : option PK;
  b_serial_number : option Z;
  b_not_valid_before : option datetime;
  b_not_valid_after : option datetime;
  b_extensions : list Extension
}.
End Certificates.

Arguments mkTBS {PK}.
Arguments tbs_subject {PK}.
Arguments tbs_issuer {PK}.
Arguments tbs_public_key {PK}.
Arguments tbs_serial_number {PK}.
Arguments tbs_not_valid_before {PK}.
Arguments tbs_not_valid_after {PK}.
Arguments tbs_extensions {PK}.
Arguments mkCertificate {PK}.
Arguments tbs_certificate {PK}.
Arguments signature_hash_algorithm {PK}.
Arguments signature {PK}.
Arguments mkBuilder {PK}.
Arguments b_issuer_name {PK}.
Arguments b_subject_name {PK}.
Arguments b_public_key {PK}.
Arguments b_serial_number {PK}.
Arguments b_not_valid_before {PK}.
Arguments b_not_valid_after {PK}.
Arguments b_extensions {PK}.

(** The parts of the [cryptography] package and of the interpreter that the
    model leaves opaque: key material, encodings, signatures, and the value
    checks of constructors, which differ between releases of the package. *)
Class Platform := {
  PublicKey : Type;
  PrivateKey : Type;
  CertificateSigningRequest : Type;
  (** [x509.load_der_x509_csr]: [None] when the bytes are not a request. *)
  parse_der_csr : bytes -> option CertificateSigningRequest;
  (** [csr.public_key()]. *)
  csr_public_key : CertificateSigningRequest -> PublicKey;
  (** [private_key.public_key()]. *)
  private_public_key : PrivateKey -> PublicKey;
  (** [key.public_bytes(Encoding.DER, PublicFormat.SubjectPublicKeyInfo)]. *)
  public_bytes_spki_der : PublicKey -> bytes;
  (** The signature over a to-be-signed certificate. *)
  sign_tbs : PrivateKey -> HashAlgorithm -> TBSCertificate PublicKey -> outcome bytes;
  (** [cert.public_bytes(Encoding.PEM)]. *)
  public_bytes_pem : Certificate PublicKey -> bytes;
  (** The certificates held by a DER-encoded PKCS#7 bundle, in the order in
      which it holds them, each in PEM ([pkcs7.load_der_pkcs7_certificates]
      followed by [public_bytes(Encoding.PEM)]); [None] when the bytes are
      not such a bundle. *)
  pkcs7_certificates : bytes -> option (list bytes);
  (** The value checks of [NameAttribute], [DNSName] and [serial_number]. *)
  accepts_name_attribute : NameOID -> string -> bool;
  accepts_dns_name : string -> bool;
  accepts_serial_number : Z -> bool;
  (** [int(s)] on a string. *)
  int_of_str : string -> option Z
}.

(* ===================================================================== *)
(** ** The world outside the interpreter *)
(* ===================================================================== *)

(** A finished child process: what it wrote to its standard output, and its
    exit status. *)
Record Completed := mkCompleted {
  proc_stdout : bytes;
  proc_returncode : Z
}.

(** [requests]: what is sent, and what comes back. *)
Record Request := mkRequest {
  req_url : string;
  req_headers : list (string * string);
  req_json : json
}.

Record Response := mkResponse {
  status_code : Z;
  text : string
}.

Section World.
Context {P : Platform}.

(** The state that the backend reads and changes. The clock, the entropy
    source, the key generator, the candidate names of temporary files and the
    network are tapes: entry 0 is what the next call gets, and a call moves
    the tape on. [programs] is what starting a command line does, given the
    files present at that moment: an error of [Popen], or a finished process. *)
Record World := mkWorld {
  clock : nat -> datetime;
  entropy : nat -> byte;
  keygen : nat -> Z -> Z -> outcome PrivateKey;
  tmp_candidates : nat -> string;
  filesystem : gmap string bytes;
  programs : list string -> gmap string bytes -> outcome Completed;
  network : nat -> Request -> outcome Response;
  stdout : list (list pyval)
}.

Definition advance {A} (k : nat) (tape : nat -> A) : nat -> A :=
  fun i => tape (k + i)%nat.

Definition set_clock (f : nat -> datetime) (w : World) : World :=
  mkWorld f (entropy w) (keygen w) (tmp_candidates w) (filesystem w)
          (programs w) (network w) (stdout w).
Definition set_entropy (f : nat -> byte) (w : World) : World :=
  mkWorld (clock w) f (keygen w) (tmp_candidates w) (filesystem w)
          (programs w) (network w) (stdout w).
Definition set_keygen (f : nat -> Z -> Z -> outcome PrivateKey) (w : World) : World :=
  mkWorld (clock w) (entropy w) f (tmp_candidates w) (filesystem w)
          (programs w) (network w) (stdout w).
Definition set_tmp_candidates (f : nat -> string) (w : World) : World :=
  mkWorld (clock w) (entropy w) (keygen w) f (filesystem w)
          (programs w) (network w) (stdout w).
Definition set_filesystem (fs : gmap string bytes) (w : World) : World :=
  mkWorld (clock w) (entropy w) (keygen w) (tmp_candidates w) fs
          (programs w) (network w) (stdout w).
Definition set_programs
    (f : list string -> gmap string bytes -> outcome Completed) (w : World) : World :=
  mkWorld (clock w) (entropy w) (keygen w) (tmp_candidates w) (filesystem w)
          f (network w) (stdout w).
Definition set_network (f : nat -> Request -> outcome Response) (w : World) : World :=
  mkWorld (clock w) (entropy w) (keygen w) (tmp_candidates w) (filesystem w)
          (programs w) f (stdout w).
Definition set_stdout (o : list (list pyval)) (w : World) : World :=
  mkWorld (clock w) (entropy w) (keygen w) (tmp_candidates w) (filesystem w)
          (programs w) (network w) o.

(** Statements: they change the world, and return or raise. *)
Definition M (A : Type) : Type := World -> outcome A * World.

Definition ret {A} (a : A) : M A := fun w => (Returned a, w).
Definition raise {A} (e : exn) : M A := fun w => (Raised e, w).

Definition bind {A B} (m : M A) (f : A -> M B) : M B :=
  fun w =>
    match m w with
    | (Returned a, w') => f a w'
    | (Raised e, w') => (Raised e, w')
    end.

(** A call of a function that changes nothing outside the interpreter. *)
Definition lift {A} (o : outcome A) : M A := fun w => (o, w).

(** [try: body  except Exception as e: handler(e)]. *)
Definition try_except {A} (body : M A) (handler : exn -> M A) : M A :=
  fun w =>
    match body w with
    | (Returned a, w') => (Returned a, w')
    | (Raised e, w') => handler e w'
    end.

(** [print] with the given arguments: one line on the standard output. *)
Definition print (args : list pyval) : M unit :=
  fun w => (Returned tt, set_stdout (stdout w ++ [args]) w).

End World.

Declare Scope py_scope.
Delimit Scope py_scope with py.
Notation "x <- m ;; k" := (bind m (fun x => k))
  (at level 100, m at next level, right associativity) : py_scope.
Notation "m ;;; k" := (bind m (fun _ => k))
  (at level 100, right associativity) : py_scope.

Local Open Scope py_scope.

(* ===================================================================== *)
(** ** The library calls of the backend *)
(* ===================================================================== *)

Section Library.
Context {P : Platform}.

(** [datetime.datetime.utcnow()]: one reading of the clock. *)
Definition utcnow : M datetime :=
  fun w => (Returned (clock w 0%nat), set_clock (advance 1 (clock w)) w).

(** [datetime.timedelta(days=d)]. *)
Definition days (d : Z) : timedelta := d * 86400 * 1000000.

(** [t.replace(microsecond=0)]: the datetime without its microseconds, which
    is all that the [UTCTime] of a certificate holds. *)
Definition whole_seconds (t : datetime) : datetime := t / 1000000 * 1000000.

(** [os.urandom(n)]: the next [n] bytes of the entropy source. *)
Definition urandom (n : nat) : M bytes :=
  fun w => (Returned (map (entropy w) (seq 0 n)),
            set_entropy (advance n (entropy w)) w).

(** [uuid.UUID(bytes=b, version=4).int]: the 128-bit value of [b] with the
    variant set to RFC 4122 and the version to 4. *)
Definition uuid_with_version4 (b : bytes) : Z :=
  let i := int_from_bytes_big b in
  let i := Z.land i (Z.lnot (Z.shiftl 0xc000 48)) in
  let i := Z.lor i (Z.shiftl 0x8000 48) in
  let i := Z.land i (Z.lnot (Z.shiftl 0xf000 64)) in
  Z.lor i (Z.shiftl 4 76).

(** [int(uuid.uuid4())]: [UUID(bytes=os.urandom(16), version=4)]. *)
Definition int_uuid4 : M Z :=
  b <- urandom 16 ;;
  ret (uuid_with_version4 b).

(** [x509.random_serial_number()]:
    [int.from_bytes(os.urandom(20), "big") >> 1]. *)
Definition random_serial_number : M Z :=
  b <- urandom 20 ;;
  ret (Z.shiftr (int_from_bytes_big b) 1).

(** [rsa.generate_private_key(public_exponent, key_size)]. *)
Definition generate_private_key (public_exponent key_size : Z) : M PrivateKey :=
  fun w => (keygen w 0%nat public_exponent key_size,
            set_keygen (advance 1 (keygen w)) w).

(** [x509.load_der_x509_csr(data)]. *)
Definition load_der_x509_csr (data : bytes) : outcome CertificateSigningRequest :=
  match parse_der_csr data with
  | Some c => Returned c
  | None => Raised (ValueError "error parsing asn1 value")
  end.

(** [x509.NameAttribute(oid, value)]. *)
Definition new_NameAttribute (oid : NameOID) (value : string) : outcome NameAttribute :=
  if accepts_name_attribute oid value
  then Returned (mkNameAttribute oid value)
  else Raised (ValueError "invalid attribute value").

(** [x509.DNSName(value)]. *)
Definition new_DNSName (value : string) : outcome GeneralName :=
  if accepts_dns_name value
  then Returned (DNSName value)
  else Raised (ValueError "DNSName values should be passed as an A-label string").

(** [x509.CertificateBuilder()]. *)
Definition new_CertificateBuilder : CertificateBuilder PublicKey :=
  mkBuilder None None None None None None [].

Definition issuer_name (b : CertificateBuilder PublicKey) (name : Name)
  : outcome (CertificateBuilder PublicKey) :=
  match b_issuer_name b with
  | Some _ => Raised (ValueError "The issuer name may only be set once.")
  | None =>
      Returned (mkBuilder (Some name) (b_subject_name b) (b_public_key b)
                  (b_serial_number b) (b_not_valid_before b)
                  (b_not_valid_after b) (b_extensions b))
  end.

Definition subject_name (b : CertificateBuilder PublicKey) (name : Name)
  : outcome (CertificateBuilder PublicKey) :=
  match b_subject_name b with
  | Some _ => Raised (ValueError "The subject name may only be set once.")
  | None =>
      Returned (mkBuilder (b_issuer_name b) (Some name) (b_public_key b)
                  (b_serial_number b) (b_not_valid_before b)
                  (b_not_valid_after b) (b_extensions b))
  end.

Definition public_key (b : CertificateBuilder PublicKey) (key : PublicKey)
  : outcome (CertificateBuilder PublicKey) :=
  match b_public_key b with
  | Some _ => Raised (ValueError "The public key may only be set once.")
  | None =>
      Returned (mkBuilder (b_issuer_name b) (b_subject_name b) (Some key)
                  (b_serial_number b) (b_not_valid_before b)
                  (b_not_valid_after b) (b_extensions b))
  end.

Definition serial_number (b : CertificateBuilder PublicKey) (number : Z)
  : outcome (CertificateBuilder PublicKey) :=
  match b_serial_number b with
  | Some _ => Raised (ValueError "The serial number may only be set once.")
  | None =>
      if accepts_serial_number number
      then Returned (mkBuilder (b_issuer_name b) (b_subject_name b) (b_public_key b)
                       (Some number) (b_not_valid_before b)
                       (b_not_valid_after b) (b_extensions b))
      else Raised (ValueError "The serial number should be positive.")
  end.

(** 1950-01-01 00:00:00, in microseconds since 1970-01-01. *)
Definition EARLY_UTC_TIME : datetime := - 631152000 * 1000000.

Definition not_valid_before (b : CertificateBuilder PublicKey) (time : datetime)
  : outcome (CertificateBuilder PublicKey) :=
  match b_not_valid_before b with
  | Some _ => Raised (ValueError "The not valid before may only be set once.")
  | None =>
      if time <? EARLY_UTC_TIME
      then Raised (ValueError "The not valid before date must be on or after 1950 January 1.")
      else
        match b_not_valid_after b with
        | Some after =>
            if after <? time
            then Raised (ValueError
                   "The not valid before date must be before the not valid after date.")
            else Returned (mkBuilder (b_issuer_name b) (b_subject_name b)
                             (b_public_key b) (b_serial_number b) (Some time)
                             (b_not_valid_after b) (b_extensions b))
        | None =>
            Returned (mkBuilder (b_issuer_name b) (b_subject_name b)
                        (b_public_key b) (b_serial_number b) (Some time)
                        (b_not_valid_after b) (b_extensions b))
        end
  end.

Definition not_valid_after (b : CertificateBuilder PublicKey) (time : datetime)
  : outcome (CertificateBuilder PublicKey) :=
  match b_not_valid_after b with
  | Some _ => Raised (ValueError "The not valid after may only be set once.")
  | None =>
      if time <? EARLY_UTC_TIME
      then Raised (ValueError "The not valid after date must be on or after 1950 January 1.")
      else
        match b_not_valid_before b with
        | Some before =>
            if time <? before
            then Raised (ValueError
                   "The not valid after date must be after the not valid before date.")
            else Returned (mkBuilder (b_issuer_name b) (b_subject_name b)
                             (b_public_key b) (b_serial_number b)
                             (b_not_valid_before b) (Some time) (b_extensions b))
        | None =>
            Returned (mkBuilder (b_issuer_name b) (b_subject_name b)
                        (b_public_key b) (b_serial_number b)
                        (b_not_valid_before b) (Some time) (b_extensions b))
        end
  end.

Definition same_extension_oid (a b : ExtensionOID) : bool :=
  match a, b with
  | SUBJECT_ALTERNATIVE_NAME, SUBJECT_ALTERNATIVE_NAME => true
  | BASIC_CONSTRAINTS, BASIC_CONSTRAINTS => true
  | _, _ => false
  end.

Definition add_extension (b : CertificateBuilder PublicKey)
    (extval : ExtensionType) (critical : bool)
  : outcome (CertificateBuilder PublicKey) :=
  if existsb (fun e => same_extension_oid (extension_oid (ext_value e))
                                          (extension_oid extval))
             (b_extensions b)
  then Raised (ValueError "This extension has already been set.")
  else Returned (mkBuilder (b_issuer_name b) (b_subject_name b) (b_public_key b)
                   (b_serial_number b) (b_not_valid_before b) (b_not_valid_after b)
                   (b_extensions b ++ [mkExtension extval critical])).

(** [builder.sign(private_key, algorithm)]: every field must be set; the
    certificate carries the fields of the builder and the signature of
    [private_key] over them. The validity bounds are encoded from the year,
    month, day, hour, minute and second of the datetimes handed to the
    builder: their microseconds are dropped. *)
Definition builder_sign (b : CertificateBuilder PublicKey)
    (private_key : PrivateKey) (algorithm : HashAlgorithm)
  : outcome (Certificate PublicKey) :=
  match b_subject_name b with
  | None => Raised (ValueError "A certificate must have a subject name")
  | Some subject =>
  match b_issuer_name b with
  | None => Raised (ValueError "A certificate must have an issuer name")
  | Some issuer =>
  match b_serial_number b with
  | None => Raised (ValueError "A certificate must have a serial number")
  | Some serial =>
  match b_not_valid_before b with
  | None => Raised (ValueError "A certificate must have a not valid before time")
  | Some before =>
  match b_not_valid_after b with
  | None => Raised (ValueError "A certificate must have a not valid after time")
  | Some after =>
  match b_public_key b with
  | None => Raised (ValueError "A certificate must have a public key")
  | Some key =>
      let tbs := mkTBS subject issuer key serial
                   (whole_seconds before) (whole_seconds after)
                   (b_extensions b) in
      obind (sign_tbs private_key algorithm tbs)
            (fun sig => Returned (mkCertificate tbs algorithm sig))
  end end end end end end.

(** The accessors of a certificate. *)
Definition cert_subject (c : Certificate PublicKey) : Name :=
  tbs_subject (tbs_certificate c).
Definition cert_issuer (c : Certificate PublicKey) : Name :=
  tbs_issuer (tbs_certificate c).
Definition cert_public_key (c : Certificate PublicKey) : PublicKey :=
  tbs_public_key (tbs_certificate c).
Definition cert_serial_number (c : Certificate PublicKey) : Z :=
  tbs_serial_number (tbs_certificate c).
Definition cert_not_valid_before (c : Certificate PublicKey) : datetime :=
  tbs_not_valid_before (tbs_certificate c).
Definition cert_not_valid_after (c : Certificate PublicKey) : datetime :=
  tbs_not_valid_after (tbs_certificate c).
Definition cert_extensions (c : Certificate PublicKey) : list Extension :=
  tbs_extensions (tbs_certificate c).

End Library.

(* ===================================================================== *)
(** ** tempfile, subprocess, requests, dictionaries *)
(* ===================================================================== *)

Section Collaborators.
Context {P : Platform}.

(** An open [NamedTemporaryFile]: its path and what is written but not yet
    flushed. *)
Record TemporaryFile := mkTemporaryFile {
  f_name : string;
  f_buffer : bytes
}.

Definition TMP_MAX : nat := 10000.

(** [tempfile._mkstemp_inner]: candidate names are tried until one does not
    exist ([O_CREAT | O_EXCL]); the file is created empty. *)
Fixpoint mkstemp_inner (attempts : nat) : M string :=
  match attempts with
  | O => raise (FileExistsError "No usable temporary file name found")
  | S attempts' =>
      fun w =>
        let file := tmp_candidates w 0%nat in
        let w1 := set_tmp_candidates (advance 1 (tmp_candidates w)) w in
        match filesystem w !! file with
        | Some _ => mkstemp_inner attempts' w1
        | None => (Returned file, set_filesystem (<[file := []]> (filesystem w)) w1)
        end
  end.

(** [tempfile.NamedTemporaryFile()]. *)
Definition NamedTemporaryFile : M TemporaryFile :=
  file <- mkstemp_inner TMP_MAX ;;
  ret (mkTemporaryFile file []).

(** [f.write(data)]. *)
Definition file_write (f : TemporaryFile) (data : bytes) : TemporaryFile :=
  mkTemporaryFile (f_name f) (f_buffer f ++ data).

(** [f.flush()]: the buffer is appended to the file. *)
Definition file_flush (f : TemporaryFile) : M TemporaryFile :=
  fun w =>
    let old := default [] (filesystem w !! f_name f) in
    (Returned (mkTemporaryFile (f_name f) []),
     set_filesystem (<[f_name f := old ++ f_buffer f]> (filesystem w)) w).

(** [f.close()]: flush, then delete the file. *)
Definition file_close (f : TemporaryFile) : M unit :=
  f' <- file_flush f ;;
  fun w => (Returned tt, set_filesystem (delete (f_name f') (filesystem w)) w).

(** [Popen(args, stdin=PIPE, stdout=PIPE, stderr=DEVNULL)]: the command is
    started on the files present now. *)
Definition Popen (args : list string) : M Completed :=
  fun w => (programs w args (filesystem w), w).

(** [proc.stdout.read()]: everything the process wrote, up to end of file. *)
Definition stdout_read (proc : Completed) : bytes := proc_stdout proc.

(** [requests.post(url, headers=headers, json=payload)]. *)
Definition requests_post (url : string) (headers : list (string * string))
    (payload : json) : M Response :=
  fun w => (network w 0%nat (mkRequest url headers payload),
            set_network (advance 1 (network w)) w).

(** [d[key]]. *)
Definition getitem {V} (d : gmap string V) (key : string) : outcome V :=
  match d !! key with
  | Some v => Returned v
  | None => Raised (KeyError key)
  end.

(** [int(s)]. *)
Definition int (s : string) : outcome Z :=
  match int_of_str s with
  | Some z => Returned z
  | None => Raised (ValueError "invalid literal for int() with base 10")
  end.

End Collaborators.

(* ===================================================================== *)
(** ** serles.backends.dane *)
(* ===================================================================== *)

Definition TIME_DELTA : timedelta := Eval cbv in days 5.

Record DaneBackend := mkDaneBackend {
  config : gmap string (gmap string string)
}.

Section Backend.
Context {P : Platform}.

(** [self.config["sendgrid"][key]]. *)
Definition sendgrid (self : DaneBackend) (key : string) : outcome string :=
  obind (getitem (config self) "sendgrid") (fun section => getitem section key).

Definition generate_ephemeral_ca (self : DaneBackend)
  : M (Certificate PublicKey * PrivateKey) :=
  (* Generate CA's key pair *)
  private_key <- generate_private_key 65537 2048 ;;
  let public_key_ := private_public_key private_key in
  cn <- lift (new_NameAttribute COMMON_NAME "Handshake Tools Ephemeral CA") ;;
  o <- lift (new_NameAttribute ORGANIZATION_NAME "Handshake Tools") ;;
  ou <- lift (new_NameAttribute ORGANIZATIONAL_UNIT_NAME "ACME") ;;
  let subject := [cn; o; ou] in
  let issuer := subject in
  (* Create CA certificate *)
  let builder := new_CertificateBuilder in
  builder <- lift (subject_name builder subject) ;;
  builder <- lift (issuer_name builder issuer) ;;
  now <- utcnow ;;
  builder <- lift (not_valid_before builder (now - TIME_DELTA)) ;;
  now <- utcnow ;;
  builder <- lift (not_valid_after builder (now + TIME_DELTA)) ;;
  serial <- int_uuid4 ;;
  builder <- lift (serial_number builder serial) ;;
  builder <- lift (public_key builder public_key_) ;;
  builder <- lift (add_extension builder (BasicConstraints true None) true) ;;
  (* Sign CA certificate with CA key *)
  certificate <- lift (builder_sign builder private_key SHA256) ;;
  ret (certificate, private_key).

(** The loop of [create_fullchain] over [certs]: one temporary file per
    certificate, written and flushed, and its name added to the arguments. *)
Fixpoint write_certfiles (certs : list bytes)
    (files : list TemporaryFile) (certfile_args : list string)
  : M (list TemporaryFile * list string) :=
  match certs with
  | [] => ret (files, certfile_args)
  | cert :: certs' =>
      f <- NamedTemporaryFile ;;
      let f := file_write f cert in
      f <- file_flush f ;;
      let certfile_args := certfile_args ++ ["-certfile"; f_name f] in
      let files := files ++ [f] in
      write_certfiles certs' files certfile_args
  end.

(** [for file in files: file.close()]. *)
Fixpoint close_files (files : list TemporaryFile) : M unit :=
  match files with
  | [] => ret tt
  | file :: files' => file_close file ;;; close_files files'
  end.

Definition openssl_command (certfile_args : list string) : list string :=
  ["openssl"; "crl2pkcs7"; "-nocrl"; "-outform"; "DER"] ++ certfile_args.

Definition create_fullchain (self : DaneBackend) (certs : list bytes) : M bytes :=
  fa <- write_certfiles certs [] [] ;;
  let files := fst fa in
  let certfile_args := snd fa in
  print [PyStr "certfile_args:"; PyStrList certfile_args] ;;;
  proc <- Popen (openssl_command certfile_args) ;;
  let pem_cert := stdout_read proc in
  print [PyStr "combined fullchain:"; PyBytes pem_cert] ;;;
  close_files files ;;;
  ret pem_cert.

Definition send_cert_issue_email (self : DaneBackend)
    (email domain digest : string) : M unit :=
  api_key <- lift (sendgrid self "api_key") ;;
  print [PyStr ("Bearer " ++ api_key)%string] ;;;
  api_key <- lift (sendgrid self "api_key") ;;
  let headers :=
    [("Authorization", ("Bearer " ++ api_key)%string);
     ("Content-Type", "application/json")] in
  template_id <- lift (sendgrid self "template_id") ;;
  from_name <- lift (sendgrid self "from_name") ;;
  from_email <- lift (sendgrid self "from_email") ;;
  asm_group_id <- lift (sendgrid self "asm_group_id") ;;
  group_id <- lift (int asm_group_id) ;;
  let payload :=
    JObject
      [("template_id", JString template_id);
       ("personalizations",
        JArray [JObject
          [("dynamic_template_data",
            JObject [("domain", JString domain); ("digest", JString digest)]);
           ("to", JArray [JObject [("email", JString email)]])]]);
       ("from", JObject [("name", JString from_name); ("email", JString from_email)]);
       ("asm", JObject [("group_id", JNumber group_id)])] in
  r <- requests_post "https://api.sendgrid.com/v3/mail/send" headers payload ;;
  if negb ((status_code r =? 200) || (status_code r =? 202))
  then print [PyInt (status_code r)] ;;; print [PyStr (text r)]
  else ret tt.

(** The local variables of [sign] when it reaches the notification step. *)
Record Issued := mkIssued {
  ca_cert : Certificate PublicKey;
  ca_privkey : PrivateKey;
  certificate : Certificate PublicKey;
  bundle : bytes;
  tlsa_digest : string
}.

(** [sign], from its first statement to the computation of the TLSA digest
    (everything before [# Send email]). *)
Definition sign_issue (self : DaneBackend) (csr : bytes) (subjectDN : string)
    (subjectAltNames : list string) (email : string) : M Issued :=
  print [PyStr "csr:"; PyBytes csr] ;;;
  print [PyStr "subjectDN:"; PyStr subjectDN] ;;;
  print [PyStr "subjectAltNames:"; PyStrList subjectAltNames] ;;;
  print [PyStr "email:"; PyStr email] ;;;
  (* Load CSR *)
  csr_obj <- lift (load_der_x509_csr csr) ;;
  cn <- lift (new_NameAttribute COMMON_NAME subjectDN) ;;
  let subject := [cn] in
  let issuer := subject in
  (* Generate temporary CA *)
  ca <- generate_ephemeral_ca self ;;
  let ca_cert := fst ca in
  let ca_privkey := snd ca in
  (* Create certificate *)
  let certificate := new_CertificateBuilder in
  certificate <- lift (subject_name certificate subject) ;;
  certificate <- lift (issuer_name certificate issuer) ;;
  certificate <- lift (public_key certificate (csr_public_key csr_obj)) ;;
  serial <- random_serial_number ;;
  certificate <- lift (serial_number certificate serial) ;;
  now <- utcnow ;;
  certificate <- lift (not_valid_before certificate (now - TIME_DELTA)) ;;
  now <- utcnow ;;
  certificate <- lift (not_valid_after certificate (now + TIME_DELTA)) ;;
  names <- lift (comprehension new_DNSName subjectAltNames) ;;
  certificate <- lift (add_extension certificate (SubjectAlternativeName names) false) ;;
  (* Sign certificate with CA's key *)
  certificate <- lift (builder_sign certificate ca_privkey SHA256) ;;
  (* Bundle domain and CA certificate into fullchain (PKCS#7, DER) *)
  bundle <- create_fullchain self
              [public_bytes_pem ca_cert; public_bytes_pem certificate] ;;
  print [PyStr "bundle:"; PyBytes bundle] ;;;
  (* TLSA *)
  let cert_bytes := public_bytes_spki_der (cert_public_key certificate) in
  let tlsa_digest := hashlib.sha256_hexdigest cert_bytes in
  print [PyStr "TLSA:";
         PyStr ("_443._tcp." ++ subjectDN ++ ". TLSA 3 1 1 " ++ tlsa_digest)%string] ;;;
  ret (mkIssued ca_cert ca_privkey certificate bundle tlsa_digest).

(** [sign]: the pipeline, the notification inside [try/except Exception], and
    [return (bundle, None)]. *)
Definition sign (self : DaneBackend) (csr : bytes) (subjectDN : string)
    (subjectAltNames : list string) (email : string)
  : M (bytes * option string) :=
  issued <- sign_issue self csr subjectDN subjectAltNames email ;;
  (* Send email *)
  try_except
    (send_cert_issue_email self email subjectDN (tlsa_digest issued))
    (fun e => print [PyExn e]) ;;;
  ret (bundle issued, None).

End Backend.


(* ===================================================================== *)
(** ** Notions used to state the properties *)
(* ===================================================================== *)

(** The subject of the ephemeral CA. *)
Definition ca_name : Name :=
  [ mkNameAttribute COMMON_NAME "Handshake Tools Ephemeral CA";
    mkNameAttribute ORGANIZATION_NAME "Handshake Tools";
    mkNameAttribute ORGANIZATIONAL_UNIT_NAME "ACME" ].

(** The arguments that name the certificate files. *)
Definition certfile_arguments (names : list string) : list string :=
  flat_map (fun name => ["-certfile"; name]) names.

Section Toolchain.
Context {P : Platform}.




(** The run returned, and what it returned satisfies [Q]. *)
Definition returned_with {A} (r : outcome A * World) (Q : A -> Prop) : Prop :=
  match r with
  | (Returned a, _) => Q a
  | (Raised _, _) => False
  end.

Definition is_returned {A} (r : outcome A * World) : bool :=
  match r with
  | (Returned _, _) => true
  | (Raised _, _) => false
  end.

(** The contract of the toolchain: given one or more files that each hold
    one PEM certificate, an [openssl crl2pkcs7] that exits with status 0 has
    written the bundle of these certificates, in the order of the command
    line. Nothing is asked of a run on other files, or of a run that fails. *)
Definition toolchain_assembles (w : World) : Prop :=
  forall names fs certs proc,
    names <> [] ->
    Forall2 (fun name cert => fs !! name = Some (public_bytes_pem cert))
            names certs ->
    programs w (openssl_command (certfile_arguments names)) fs = Returned proc ->
    proc_returncode proc = 0 ->
    pkcs7_certificates (proc_stdout proc) = Some (map public_bytes_pem certs).

End Toolchain.

Section Facts.
Context {P : Platform}.

(** What a run of [sign_issue] from the world [w] that returned [iss] has
    done: the CA and the leaf it built, the run of the toolchain that gave
    the bundle, and the digest. *)
Record issuance (w : World) (csr : bytes) (subjectDN : string)
    (subjectAltNames : list string) (iss : Issued) : Prop := {
  iss_csr :
    exists csr_obj, parse_der_csr csr = Some csr_obj /\
      cert_public_key (certificate iss) = csr_public_key csr_obj;
  iss_ca_key : keygen w 0%nat 65537 2048 = Returned (ca_privkey iss);
  iss_ca_subject : cert_subject (ca_cert iss) = ca_name;
  iss_ca_issuer : cert_issuer (ca_cert iss) = ca_name;
  iss_ca_public_key :
    cert_public_key (ca_cert iss) = private_public_key (ca_privkey iss);
  iss_ca_not_before :
    cert_not_valid_before (ca_cert iss)
    = whole_seconds (clock w 0%nat - TIME_DELTA);
  iss_ca_not_after :
    cert_not_valid_after (ca_cert iss)
    = whole_seconds (clock w 1%nat + TIME_DELTA);
  iss_ca_serial :
    cert_serial_number (ca_cert iss)
    = uuid_with_version4 (map (entropy w) (seq 0 16));
  iss_ca_extensions :
    cert_extensions (ca_cert iss) = [mkExtension (BasicConstraints true None) true];
  iss_subject :
    cert_subject (certificate iss) = [mkNameAttribute COMMON_NAME subjectDN];
  iss_issuer :
    cert_issuer (certificate iss) = [mkNameAttribute COMMON_NAME subjectDN];
  iss_not_before :
    cert_not_valid_before (certificate iss)
    = whole_seconds (clock w 2%nat - TIME_DELTA);
  iss_not_after :
    cert_not_valid_after (certificate iss)
    = whole_seconds (clock w 3%nat + TIME_DELTA);
  iss_serial :
    cert_serial_number (certificate iss)
    = Z.shiftr (int_from_bytes_big (map (entropy w) (seq 16 20))) 1;
  iss_extensions :
    cert_extensions (certificate iss)
    = [mkExtension (SubjectAlternativeName (map DNSName subjectAltNames)) false];
  iss_signed :
    sign_tbs (ca_privkey iss) SHA256 (tbs_certificate (certificate iss))
    = Returned (signature (certificate iss));
  iss_bundle :
    exists names fs proc,
      NoDup names /\
      mapM (fun name => fs !! name) names
      = Some [public_bytes_pem (ca_cert iss);
              public_bytes_pem (certificate iss)] /\
      programs w (openssl_command (certfile_arguments names)) fs
      = Returned proc /\
      bundle iss = proc_stdout proc;
  iss_digest :
    tlsa_digest iss
    = hashlib.sha256_hexdigest
        (public_bytes_spki_der (cert_public_key (certificate iss)))
}.

End Facts.

Section Sink.
Context {P : Platform}.

(** A statement that neither reads nor changes the network: on a world with
    another network it does the same, and leaves that network in place. *)
Definition ignores_network {A} (m : M A) : Prop :=
  forall net w, m (set_network net w) = (fst (m w), set_network net (snd (m w))).

End Sink.

(** A lowercase hexadecimal digit. *)
Definition is_lower_hex (c : ascii) : bool :=
  let n := nat_of_ascii c in
  ((48 <=? n)%nat && (n <=? 57)%nat) || ((97 <=? n)%nat && (n <=? 102)%nat).


(* ===================================================================== *)
(** ** A small platform and a few worlds on which the backend runs *)
(* ===================================================================== *)

Module Demo.

(** Decimal digits only, as [int] reads a configuration value. *)
Fixpoint decimal (acc : option Z) (s : string) : option Z :=
  match s with
  | EmptyString => acc
  | String c s' =>
      let d := Z.of_nat (nat_of_ascii c) - 48 in
      if (0 <=? d) && (d <=? 9)
      then decimal (Some (default 0 acc * 10 + d)) s'
      else None
  end.

(** A bundle: the byte 0x30, then every certificate with the byte 0x01 before
    each of its bytes and the byte 0x00 after the last. *)
Fixpoint frame (c : bytes) : bytes :=
  match c with
  | [] => [x00]
  | b :: c' => x01 :: b :: frame c'
  end.

Definition pkcs7_encode (cs : list bytes) : bytes := x30 :: flat_map frame cs.

Fixpoint unframe (cur : bytes) (bs : bytes) : option (list bytes) :=
  match bs with
  | [] => match cur with [] => Some [] | _ :: _ => None end
  | x00 :: rest => cons (rev cur) <$> unframe [] rest
  | x01 :: b :: rest => unframe (b :: cur) rest
  | _ => None
  end.

Definition pkcs7_decode (bs : bytes) : option (list bytes) :=
  match bs with
  | x30 :: rest => unframe [] rest
  | _ => None
  end.

(** Keys are their own encodings; a request is the byte 0x30 followed by the
    key; a signature is a hash over key and serial number. *)
#[local] Instance platform : Platform := {|
  PublicKey := bytes;
  PrivateKey := bytes;
  CertificateSigningRequest := bytes;
  parse_der_csr := fun data =>
    match data with
    | x30 :: key => Some key
    | _ => None
    end;
  csr_public_key := fun c => c;
  private_public_key := fun k => rev k;
  public_bytes_spki_der := fun k => x30 :: k;
  sign_tbs := fun k _ tbs =>
    Returned (hashlib.sha256 (k ++ int_to_bytes_big 20 (tbs_serial_number tbs)));
  public_bytes_pem := fun c =>
    encode "-----BEGIN CERTIFICATE-----"
      ++ int_to_bytes_big 20 (tbs_serial_number (tbs_certificate c))
      ++ encode "-----END CERTIFICATE-----";
  pkcs7_certificates := pkcs7_decode;
  accepts_name_attribute := fun _ value => negb (String.eqb value EmptyString);
  accepts_dns_name := fun _ => true;
  accepts_serial_number := fun n => 0 <? n;
  int_of_str := decimal None
|}.

Definition backend : DaneBackend :=
  mkDaneBackend
    {[ "sendgrid" :=
         {[ "api_key" := "SG.key"; "template_id" := "d-1";
            "from_name" := "Handshake Tools";
            "from_email" := "noreply@example.test";
            "asm_group_id" := "42" ]} ]}.

(** A backend whose configuration has no [sendgrid] section. *)
Definition backend_unconfigured : DaneBackend := mkDaneBackend ∅.

(** The certificate files named on an [openssl] command line. *)
Fixpoint certfiles (args : list string) : list string :=
  match args with
  | "-certfile" :: file :: args' => file :: certfiles args'
  | _ :: args' => certfiles args'
  | [] => []
  end.

Fixpoint starts_with (header data : bytes) : bool :=
  match header, data with
  | [], _ => true
  | h :: header', d :: data' => Byte.eqb h d && starts_with header' data'
  | _ :: _, [] => false
  end.

(** Whether a file holds a certificate: it opens with the PEM header. *)
Definition holds_certificate (data : bytes) : bool :=
  starts_with (encode "-----BEGIN CERTIFICATE-----") data.

(** A toolchain that bundles the certificates of the files it was given, in
    the order of the command line, and exits with status 0; a file that
    holds no certificate adds nothing to the bundle; with a file missing the
    toolchain writes nothing and exits with status 1. *)
Definition openssl_ok (args : list string) (fs : gmap string bytes)
  : outcome Completed :=
  match mapM (fun file => fs !! file) (certfiles args) with
  | Some cs =>
      Returned (mkCompleted (pkcs7_encode (List.filter holds_certificate cs)) 0)
  | None => Returned (mkCompleted [] 1)
  end.

(** A toolchain that fails: nothing on standard output, exit status 1. *)
Definition openssl_exits_1 (args : list string) (fs : gmap string bytes)
  : outcome Completed :=
  Returned (mkCompleted [] 1).


(** The clock is read one microsecond later at every call; the first reading
    is the last microsecond of a second. *)
Definition world : World := {|
  clock := fun n => 1700000000999999 + Z.of_nat n;
  entropy := fun n => byte_of_Z (Z.of_nat n * 37 + 201);
  keygen := fun _ _ _ => Returned (encode "ephemeral");
  tmp_candidates := fun n => String (ascii_of_nat (97 + n mod 26)) ".pem";
  filesystem := {[ "a.pem" := encode "stale" ]};
  programs := openssl_ok;
  network := fun _ _ => Returned (mkResponse 202 EmptyString);
  stdout := []
|}.

Definition world_openssl_exits_1 : World := set_programs openssl_exits_1 world.
Definition world_sink_down : World :=
  set_network (fun _ _ => Raised (RequestException "connection refused")) world.
(** A clock that stands still. *)
Definition world_still : World := set_clock (fun _ => 1700000000000000) world.

Definition csr : bytes := x30 :: encode "leaf-public-key".
Definition subjectDN : string := "example.test".
Definition subjectAltNames : list string := ["www.example.test"].
Definition email : string := "ops@example.test".

End Demo.

(* ===================================================================== *)
(** ** Notions used to state further properties *)
(* ===================================================================== *)

Section Requests.
Context {P : Platform}.

(** The request that [send_cert_issue_email] posts, given the values of the
    [sendgrid] section of the configuration. *)
Definition sendgrid_request
    (api_key template_id from_name from_email : string) (group_id : Z)
    (email domain digest : string) : Request :=
  mkRequest "https://api.sendgrid.com/v3/mail/send"
    [("Authorization", ("Bearer " ++ api_key)%string);
     ("Content-Type", "application/json")]
    (JObject
      [("template_id", JString template_id);
       ("personalizations",
        JArray [JObject
          [("dynamic_template_data",
            JObject [("domain", JString domain); ("digest", JString digest)]);
           ("to", JArray [JObject [("email", JString email)]])]]);
       ("from", JObject [("name", JString from_name); ("email", JString from_email)]);
       ("asm", JObject [("group_id", JNumber group_id)])]).

(** The [sendgrid] section of the configuration holds the five values that
    the notification reads, and the group id reads as an integer. *)
Definition configured (self : DaneBackend)
    (api_key template_id from_name from_email : string) (group_id : Z) : Prop :=
  exists asm_group_id,
    sendgrid self "api_key" = Returned api_key /\
    sendgrid self "template_id" = Returned template_id /\
    sendgrid self "from_name" = Returned from_name /\
    sendgrid self "from_email" = Returned from_email /\
    sendgrid self "asm_group_id" = Returned asm_group_id /\
    int_of_str asm_group_id = Some group_id.

(** The lines that [send_cert_issue_email] prints for a response. *)
Definition response_lines (r : Response) : list (list pyval) :=
  if (status_code r =? 200) || (status_code r =? 202)
  then []
  else [[PyInt (status_code r)]; [PyStr (text r)]].

(** Two worlds that differ at most in the files and in the tape of candidate
    names for temporary files. *)
Definition same_outside_files (w w' : World) : Prop :=
  clock w' = clock w /\ entropy w' = entropy w /\ keygen w' = keygen w /\
  programs w' = programs w /\ network w' = network w /\ stdout w' = stdout w.

End Requests.

(** Further worlds of the small platform: the key generator fails; the sink
    answers with status 400. *)
Definition demo_world_keygen_fails : @World Demo.platform :=
  set_keygen (fun _ _ _ => Raised (UnsupportedAlgorithm "no RSA backend"))
    Demo.world.

Definition demo_world_sink_rejects : @World Demo.platform :=
  set_network (fun _ _ => Returned (mkResponse 400 "Bad Request")) Demo.world.

(** The request that the small backend posts for the example call. *)
Definition demo_request (digest : string) : Request :=
  sendgrid_request "SG.key" "d-1" "Handshake Tools" "noreply@example.test" 42
    Demo.email Demo.subjectDN digest.

(* ===================================================================== *)
(** ** Running statements *)
(* ===================================================================== *)

#[local] Arguments int_from_bytes_big : simpl never.
#[local] Arguments uuid_with_version4 : simpl never.
#[local] Arguments hashlib.sha256_hexdigest : simpl never.
#[local] Arguments hashlib.sha256 : simpl never.
#[local] Arguments advance : simpl never.
#[local] Arguments NamedTemporaryFile : simpl never.
#[local] Arguments TMP_MAX : simpl never.
#[local] Arguments Z.sub : simpl never.
#[local] Arguments Z.add : simpl never.
#[local] Arguments Z.ltb : simpl never.
#[local] Arguments Z.mul : simpl never.
#[local] Arguments Z.opp : simpl never.

Section Running.
Context {P : Platform}.

Lemma bind_returned {A B} (m : M A) (f : A -> M B) w b w' :
  bind m f w = (Returned b, w') ->
  exists a w1, m w = (Returned a, w1) /\ f a w1 = (Returned b, w').
Proof.
  unfold bind. destruct (m w) as [[a|e] w1]; intros H.
  - exists a, w1. split; [reflexivity | exact H].
  - discriminate H.
Qed.

Lemma bind_raised {A B} (m : M A) (f : A -> M B) w e w' :
  bind m f w = (Raised e, w') ->
  m w = (Raised e, w') \/
  exists a w1, m w = (Returned a, w1) /\ f a w1 = (Raised e, w').
Proof.
  unfold bind. destruct (m w) as [[a|e1] w1]; intros H.
  - right. exists a, w1. split; [reflexivity | exact H].
  - left. inversion H. reflexivity.
Qed.

Lemma lift_returned {A} (o : outcome A) w a w' :
  lift o w = (Returned a, w') -> o = Returned a /\ w' = w.
Proof. unfold lift. intros H. inversion H. split; reflexivity. Qed.

Lemma ret_returned {A} (a : A) w b w' :
  ret a w = (Returned b, w') -> b = a /\ w' = w.
Proof. unfold ret. intros H. inversion H. split; reflexivity. Qed.

Lemma print_returned args w u w' :
  print args w = (Returned u, w') -> w' = set_stdout (stdout w ++ [args]) w.
Proof. unfold print. intros H. inversion H. reflexivity. Qed.

Lemma utcnow_returned w t w' :
  utcnow w = (Returned t, w') ->
  t = clock w 0%nat /\ w' = set_clock (advance 1 (clock w)) w.
Proof. unfold utcnow. intros H. inversion H. split; reflexivity. Qed.

Lemma urandom_returned n w b w' :
  urandom n w = (Returned b, w') ->
  b = map (entropy w) (seq 0 n) /\ w' = set_entropy (advance n (entropy w)) w.
Proof. unfold urandom. intros H. inversion H. split; reflexivity. Qed.

Lemma int_uuid4_returned w z w' :
  int_uuid4 w = (Returned z, w') ->
  z = uuid_with_version4 (map (entropy w) (seq 0 16)) /\
  w' = set_entropy (advance 16 (entropy w)) w.
Proof.
  unfold int_uuid4. intros H.
  apply bind_returned in H as (b & w1 & Hb & H).
  apply urandom_returned in Hb as [-> ->].
  apply ret_returned in H as [-> ->]. split; reflexivity.
Qed.

Lemma random_serial_number_returned w z w' :
  random_serial_number w = (Returned z, w') ->
  z = Z.shiftr (int_from_bytes_big (map (entropy w) (seq 0 20))) 1 /\
  w' = set_entropy (advance 20 (entropy w)) w.
Proof.
  unfold random_serial_number. intros H.
  apply bind_returned in H as (b & w1 & Hb & H).
  apply urandom_returned in Hb as [-> ->].
  apply ret_returned in H as [-> ->]. split; reflexivity.
Qed.

Lemma generate_private_key_returned e bits w k w' :
  generate_private_key e bits w = (Returned k, w') ->
  keygen w 0%nat e bits = Returned k /\
  w' = set_keygen (advance 1 (keygen w)) w.
Proof. unfold generate_private_key. intros H. inversion H. split; reflexivity. Qed.

(** The calls of [cryptography]: what a call that returned has built. *)

Lemma load_der_x509_csr_returned data c :
  load_der_x509_csr data = Returned c -> parse_der_csr data = Some c.
Proof.
  unfold load_der_x509_csr. destruct (parse_der_csr data); intros H.
  - inversion H. reflexivity.
  - discriminate H.
Qed.

Lemma new_NameAttribute_returned oid value a :
  new_NameAttribute oid value = Returned a -> a = mkNameAttribute oid value.
Proof.
  unfold new_NameAttribute. destruct (accepts_name_attribute oid value); intros H.
  - inversion H. reflexivity.
  - discriminate H.
Qed.

Lemma new_DNSName_returned value g :
  new_DNSName value = Returned g -> g = DNSName value.
Proof.
  unfold new_DNSName. destruct (accepts_dns_name value); intros H.
  - inversion H. reflexivity.
  - discriminate H.
Qed.

(** A comprehension that returned has one result per element, in order. *)
Lemma comprehension_DNSName_returned names gs :
  comprehension new_DNSName names = Returned gs -> gs = map DNSName names.
Proof.
  revert gs. induction names as [|n names IH]; intros gs H; simpl in H.
  - inversion H. reflexivity.
  - destruct (new_DNSName n) as [g|e] eqn:Hg; simpl in H; [|discriminate H].
    destruct (comprehension new_DNSName names) as [gs'|e] eqn:Hgs;
      simpl in H; [|discriminate H].
    inversion H. apply new_DNSName_returned in Hg as ->.
    rewrite (IH gs' eq_refl). reflexivity.
Qed.

Lemma subject_name_returned b name b' :
  subject_name b name = Returned b' ->
  b' = mkBuilder (b_issuer_name b) (Some name) (b_public_key b)
         (b_serial_number b) (b_not_valid_before b) (b_not_valid_after b)
         (b_extensions b).
Proof.
  unfold subject_name. destruct (b_subject_name b); intros H; inversion H.
  reflexivity.
Qed.

Lemma issuer_name_returned b name b' :
  issuer_name b name = Returned b' ->
  b' = mkBuilder (Some name) (b_subject_name b) (b_public_key b)
         (b_serial_number b) (b_not_valid_before b) (b_not_valid_after b)
         (b_extensions b).
Proof.
  unfold issuer_name. destruct (b_issuer_name b); intros H; inversion H.
  reflexivity.
Qed.

Lemma public_key_returned b key b' :
  public_key b key = Returned b' ->
  b' = mkBuilder (b_issuer_name b) (b_subject_name b) (Some key)
         (b_serial_number b) (b_not_valid_before b) (b_not_valid_after b)
         (b_extensions b).
Proof.
  unfold public_key. destruct (b_public_key b); intros H; inversion H.
  reflexivity.
Qed.

Lemma serial_number_returned b number b' :
  serial_number b number = Returned b' ->
  b' = mkBuilder (b_issuer_name b) (b_subject_name b) (b_public_key b)
         (Some number) (b_not_valid_before b) (b_not_valid_after b)
         (b_extensions b).
Proof.
  unfold serial_number. destruct (b_serial_number b); [discriminate|].
  destruct (accepts_serial_number number); intros H; inversion H.
  reflexivity.
Qed.

Lemma not_valid_before_returned b time b' :
  not_valid_before b time = Returned b' ->
  b' = mkBuilder (b_issuer_name b) (b_subject_name b) (b_public_key b)
         (b_serial_number b) (Some time) (b_not_valid_after b)
         (b_extensions b).
Proof.
  unfold not_valid_before. destruct (b_not_valid_before b); [discriminate|].
  destruct (time <? EARLY_UTC_TIME); [discriminate|].
  destruct (b_not_valid_after b) as [after|].
  - destruct (after <? time); intros H; inversion H. reflexivity.
  - intros H; inversion H. reflexivity.
Qed.

Lemma not_valid_after_returned b time b' :
  not_valid_after b time = Returned b' ->
  b' = mkBuilder (b_issuer_name b) (b_subject_name b) (b_public_key b)
         (b_serial_number b) (b_not_valid_before b) (Some time)
         (b_extensions b).
Proof.
  unfold not_valid_after. destruct (b_not_valid_after b); [discriminate|].
  destruct (time <? EARLY_UTC_TIME); [discriminate|].
  destruct (b_not_valid_before b) as [before|].
  - destruct (time <? before); intros H; inversion H. reflexivity.
  - intros H; inversion H. reflexivity.
Qed.

Lemma add_extension_returned b extval critical b' :
  add_extension b extval critical = Returned b' ->
  b' = mkBuilder (b_issuer_name b) (b_subject_name b) (b_public_key b)
         (b_serial_number b) (b_not_valid_before b) (b_not_valid_after b)
         (b_extensions b ++ [mkExtension extval critical]).
Proof.
  unfold add_extension. destruct (existsb _ _); intros H; inversion H.
  reflexivity.
Qed.

(** A signed certificate carries the fields of its builder. *)
Lemma builder_sign_returned b key alg c :
  builder_sign b key alg = Returned c ->
  b_subject_name b = Some (cert_subject c) /\
  b_issuer_name b = Some (cert_issuer c) /\
  b_public_key b = Some (cert_public_key c) /\
  b_serial_number b = Some (cert_serial_number c) /\
  whole_seconds <$> b_not_valid_before b = Some (cert_not_valid_before c) /\
  whole_seconds <$> b_not_valid_after b = Some (cert_not_valid_after c) /\
  b_extensions b = cert_extensions c /\
  sign_tbs key alg (tbs_certificate c) = Returned (signature c).
Proof.
  unfold builder_sign.
  destruct (b_subject_name b); [|discriminate].
  destruct (b_issuer_name b); [|discriminate].
  destruct (b_serial_number b); [|discriminate].
  destruct (b_not_valid_before b); [|discriminate].
  destruct (b_not_valid_after b); [|discriminate].
  destruct (b_public_key b); [|discriminate].
  destruct (sign_tbs key alg _) as [sig|e] eqn:Hsig; simpl; [|discriminate].
  intros H. inversion H. subst c. cbn. rewrite Hsig. repeat split; reflexivity.
Qed.

End Running.

(** One step of a run that returned: the first statement is split off and,
    when it is a library call, replaced by what it returned. *)
Ltac simpl_world :=
  cbn [clock entropy keygen tmp_candidates filesystem programs network stdout
       set_clock set_entropy set_keygen set_tmp_candidates set_filesystem
       set_programs set_network set_stdout
       b_issuer_name b_subject_name b_public_key b_serial_number
       b_not_valid_before b_not_valid_after b_extensions
       new_CertificateBuilder app fst snd] in *.

Ltac settle_call Hm :=
  lazymatch type of Hm with
  | new_NameAttribute _ _ = _ => apply new_NameAttribute_returned in Hm as ->
  | subject_name _ _ = _ => apply subject_name_returned in Hm as ->
  | issuer_name _ _ = _ => apply issuer_name_returned in Hm as ->
  | public_key _ _ = _ => apply public_key_returned in Hm as ->
  | serial_number _ _ = _ => apply serial_number_returned in Hm as ->
  | not_valid_before _ _ = _ => apply not_valid_before_returned in Hm as ->
  | not_valid_after _ _ = _ => apply not_valid_after_returned in Hm as ->
  | add_extension _ _ _ = _ => apply add_extension_returned in Hm as ->
  | comprehension new_DNSName _ = _ =>
      apply comprehension_DNSName_returned in Hm as ->
  | load_der_x509_csr _ = _ => apply load_der_x509_csr_returned in Hm
  | _ => idtac
  end.

Ltac split_bind_as H a Hm :=
  let w1 := fresh "w" in
  apply bind_returned in H as (a & w1 & Hm & H);
  lazymatch type of Hm with
  | lift _ _ = _ => apply lift_returned in Hm as [Hm ->]; settle_call Hm
  | print _ _ = _ => apply print_returned in Hm as ->
  | utcnow _ = _ => apply utcnow_returned in Hm as [-> ->]
  | int_uuid4 _ = _ => apply int_uuid4_returned in Hm as [-> ->]
  | random_serial_number _ = _ =>
      apply random_serial_number_returned in Hm as [-> ->]
  | generate_private_key _ _ _ = _ =>
      apply generate_private_key_returned in Hm as [Hm ->]
  | _ => idtac
  end;
  simpl_world.

Ltac split_bind H :=
  let a := fresh "v" in
  let Hm := fresh "Hm" in
  split_bind_as H a Hm.

Section CA.
Context {P : Platform}.

Lemma generate_ephemeral_ca_returned self w cert key w' :
  generate_ephemeral_ca self w = (Returned (cert, key), w') ->
  keygen w 0%nat 65537 2048 = Returned key /\
  cert_subject cert = ca_name /\
  cert_issuer cert = ca_name /\
  cert_public_key cert = private_public_key key /\
  cert_not_valid_before cert = whole_seconds (clock w 0%nat - TIME_DELTA) /\
  cert_not_valid_after cert = whole_seconds (clock w 1%nat + TIME_DELTA) /\
  cert_serial_number cert = uuid_with_version4 (map (entropy w) (seq 0 16)) /\
  cert_extensions cert = [mkExtension (BasicConstraints true None) true] /\
  w' = set_entropy (advance 16 (entropy w))
         (set_clock (advance 2 (clock w))
            (set_keygen (advance 1 (keygen w)) w)).
Proof.
  unfold generate_ephemeral_ca. intros H.
  repeat split_bind H.
  apply ret_returned in H as [H ->]. inversion H; subst; clear H.
  apply builder_sign_returned in Hm0
    as (Hs & Hi & Hk & Hn & Hb & Ha & He & _).
  simpl_world. inversion Hs. inversion Hi. inversion Hk. inversion Hn.
  inversion Hb. inversion Ha.
  repeat split; try reflexivity; auto.
Qed.
End CA.

(* ===================================================================== *)
(** ** Temporary files and the toolchain *)
(* ===================================================================== *)

Section Files.
Context {P : Platform}.

Lemma mapM_cons {A B} (f : A -> option B) (x : A) (l : list A) :
  mapM f (x :: l) = y ← f x; k ← mapM f l; Some (y :: k).
Proof. reflexivity. Qed.

Lemma mkstemp_inner_S attempts w :
  mkstemp_inner (S attempts) w =
  match filesystem w !! tmp_candidates w 0%nat with
  | Some _ =>
      mkstemp_inner attempts
        (set_tmp_candidates (advance 1 (tmp_candidates w)) w)
  | None =>
      (Returned (tmp_candidates w 0%nat),
       set_filesystem (<[tmp_candidates w 0%nat := []]> (filesystem w))
         (set_tmp_candidates (advance 1 (tmp_candidates w)) w))
  end.
Proof. reflexivity. Qed.

(** A name returned by [mkstemp_inner] did not exist; it now names an empty
    file, and nothing else changed but the tape of candidate names. *)
Lemma mkstemp_inner_returned attempts : forall w file w',
  mkstemp_inner attempts w = (Returned file, w') ->
  filesystem w !! file = None /\
  exists k,
    w' = set_filesystem (<[file := []]> (filesystem w))
           (set_tmp_candidates (advance k (tmp_candidates w)) w).
Proof.
  induction attempts as [|n IH]; intros w file w' H.
  - discriminate H.
  - simpl in H.
    destruct (filesystem w !! tmp_candidates w 0%nat) as [old|] eqn:Hold.
    + apply IH in H as [Hfree [k ->]]. simpl_world.
      split; [exact Hfree|]. exists (S k). reflexivity.
    + inversion H; subst. split; [exact Hold|]. exists 1%nat. reflexivity.
Qed.

Lemma NamedTemporaryFile_returned w f w' :
  NamedTemporaryFile w = (Returned f, w') ->
  f_buffer f = [] /\
  filesystem w !! f_name f = None /\
  filesystem w' = <[f_name f := []]> (filesystem w) /\
  programs w' = programs w.
Proof.
  unfold NamedTemporaryFile. intros H.
  apply bind_returned in H as (file & w1 & Hm & H).
  apply ret_returned in H as [-> ->].
  apply mkstemp_inner_returned in Hm as [Hfree [k ->]].
  split; [reflexivity|]. split; [exact Hfree|]. split; reflexivity.
Qed.

Lemma file_flush_returned f w f' w' :
  file_flush f w = (Returned f', w') ->
  f_name f' = f_name f /\
  filesystem w' =
    <[f_name f := default [] (filesystem w !! f_name f) ++ f_buffer f]>
      (filesystem w) /\
  programs w' = programs w.
Proof.
  unfold file_flush. intros H. inversion H.
  split; [reflexivity|]. split; reflexivity.
Qed.

Lemma write_certfiles_cons cert certs files args :
  write_certfiles (cert :: certs) files args =
  (f <- NamedTemporaryFile ;;
   f' <- file_flush (file_write f cert) ;;
   write_certfiles certs (files ++ [f']) (args ++ ["-certfile"; f_name f'])).
Proof. reflexivity. Qed.

(** The loop of [create_fullchain]: every certificate is in a file of its
    own, the files are named on the command line in the order of the
    certificates, and no other file changed. *)
Lemma write_certfiles_returned certs : forall files args w files' args' w',
  write_certfiles certs files args w = (Returned (files', args'), w') ->
  exists names,
    args' = args ++ certfile_arguments names /\
    map f_name files' = map f_name files ++ names /\
    NoDup names /\
    (forall name, name ∈ names -> filesystem w !! name = None) /\
    mapM (fun name => filesystem w' !! name) names = Some certs /\
    (forall path, path ∉ names -> filesystem w' !! path = filesystem w !! path) /\
    programs w' = programs w.
Proof.
  induction certs as [|cert certs IH]; intros files args w files' args' w' H.
  - apply ret_returned in H as [H ->]. inversion H; subst.
    exists []. simpl. rewrite !app_nil_r.
    split; [reflexivity|]. split; [reflexivity|]. split; [apply NoDup_nil_2|].
    split; [intros name Hin; inversion Hin|].
    split; [reflexivity|]. split; reflexivity.
  - rewrite write_certfiles_cons in H.
    apply bind_returned in H as (f & w1 & Hf & H).
    apply bind_returned in H as (f' & w2 & Hflush & H).
    apply NamedTemporaryFile_returned in Hf as (Hbuf & Hfree & Hfs1 & Hp1).
    apply file_flush_returned in Hflush as (Hname & Hfs2 & Hp2).
    cbn [file_write f_name f_buffer] in Hname, Hfs2.
    rewrite Hbuf, Hfs1, lookup_insert_eq in Hfs2.
    simpl in Hfs2. rewrite insert_insert_eq in Hfs2.
    apply IH in H as (names & -> & Hfiles & Hnodup & Hnew & Hread & Hframe & Hp).
    assert (Hnotin : f_name f ∉ names).
    { intros Hin. apply Hnew in Hin. rewrite Hfs2, lookup_insert_eq in Hin.
      discriminate Hin. }
    exists (f_name f :: names). rewrite Hname in *.
    split; [simpl; rewrite <- app_assoc; reflexivity|].
    split; [rewrite Hfiles, map_app; simpl; rewrite Hname, <- app_assoc; reflexivity|].
    split; [apply NoDup_cons_2; assumption|].
    split.
    { intros name Hin. apply elem_of_cons in Hin as [Heq|Hin]; [subst name; exact Hfree|].
      specialize (Hnew name Hin). rewrite Hfs2 in Hnew.
      rewrite lookup_insert_ne in Hnew; [exact Hnew|].
      intros <-. contradiction. }
    split.
    { rewrite mapM_cons, (Hframe _ Hnotin), Hfs2, lookup_insert_eq, Hread.
      reflexivity. }
    split.
    { intros path Hpath. apply not_elem_of_cons in Hpath as [Hne Hpath].
      rewrite (Hframe _ Hpath), Hfs2. rewrite lookup_insert_ne; [reflexivity|].
      intros Heq. apply Hne. symmetry. exact Heq. }
    rewrite Hp, Hp2, Hp1. reflexivity.
Qed.

(** What [create_fullchain] returns is the standard output of one run of the
    toolchain, verbatim; the command line names one file per certificate, in
    the order of [certs], and each file holds its certificate. *)
Lemma create_fullchain_returned self certs w out w' :
  create_fullchain self certs w = (Returned out, w') ->
  exists names fs proc,
    NoDup names /\
    mapM (fun name => fs !! name) names = Some certs /\
    programs w (openssl_command (certfile_arguments names)) fs = Returned proc /\
    out = proc_stdout proc.
Proof.
  unfold create_fullchain. intros H.
  apply bind_returned in H as ([files args] & w1 & Hw & H).
  apply write_certfiles_returned in Hw
    as (names & -> & _ & Hnodup & _ & Hread & _ & Hp).
  simpl in H.
  apply bind_returned in H as (u & w2 & Hprint & H).
  apply print_returned in Hprint as ->.
  apply bind_returned in H as (proc & w3 & Hproc & H).
  unfold Popen in Hproc. inversion Hproc; subst w3. clear Hproc.
  apply bind_returned in H as (u' & w4 & Hprint & H).
  apply bind_returned in H as (u'' & w5 & Hclose & H).
  apply ret_returned in H as [-> ->].
  simpl_world. rewrite Hp in *.
  exists names, (filesystem w1), proc. auto.
Qed.

End Files.

(* ===================================================================== *)
(** ** The issuance pipeline *)
(* ===================================================================== *)

Section Pipeline.
Context {P : Platform}.

Lemma sign_issue_returned self csr subjectDN subjectAltNames email w iss w' :
  sign_issue self csr subjectDN subjectAltNames email w = (Returned iss, w') ->
  issuance w csr subjectDN subjectAltNames iss.
Proof.
  unfold sign_issue. intros H.
  do 4 split_bind H.
  split_bind_as H csr_obj Hcsr.
  split_bind H.
  split_bind_as H ca Hgen. destruct ca as [ca key].
  apply generate_ephemeral_ca_returned in Hgen
    as (Hkey & Hcs & Hci & Hck & Hcb & Hca & Hcn & Hce & ->).
  simpl_world.
  do 9 split_bind H.
  do 2 split_bind H.
  split_bind_as H leaf Hsign.
  split_bind_as H out Hchain.
  do 2 split_bind H.
  apply ret_returned in H as [-> _].
  apply builder_sign_returned in Hsign
    as (Hs & Hi & Hk & Hn & Hb & Ha & He & Hsig).
  simpl_world.
  inversion Hs as [Hs']. inversion Hi as [Hi']. inversion Hk as [Hk'].
  inversion Hn as [Hn']. inversion Hb as [Hb']. inversion Ha as [Ha'].
  apply create_fullchain_returned in Hchain
    as (names & fs & proc & Hnodup & Hread & Hproc & ->).
  simpl_world.
  constructor; cbn [ca_cert ca_privkey certificate bundle tlsa_digest];
    try assumption; try reflexivity; try (symmetry; assumption).
  - exists csr_obj. split; [assumption | symmetry; assumption].
  - exists names, fs, proc. auto.
  - rewrite Hk'. reflexivity.
Qed.
End Pipeline.

(* ===================================================================== *)
(** ** The notification step *)
(* ===================================================================== *)

Section Notification.
Context {P : Platform}.

(** [try: ... except Exception as e: print(e)] returns, whatever the body
    does. *)
Lemma try_except_print_returns (body : M unit) w :
  exists w', try_except body (fun e => print [PyExn e]) w = (Returned tt, w').
Proof.
  unfold try_except. destruct (body w) as [[[]|e] w1].
  - exists w1. reflexivity.
  - eexists. reflexivity.
Qed.

(** Once the pipeline has returned, [sign] returns its bundle and [None]. *)
Lemma sign_after_issue self csr subjectDN subjectAltNames email w iss w1 :
  sign_issue self csr subjectDN subjectAltNames email w = (Returned iss, w1) ->
  exists w',
    sign self csr subjectDN subjectAltNames email w
    = (Returned (bundle iss, None), w').
Proof.
  intros H. unfold sign, bind at 1. rewrite H.
  unfold bind.
  destruct (try_except_print_returns
              (send_cert_issue_email self email subjectDN (tlsa_digest iss)) w1)
    as [w' Hw'].
  rewrite Hw'. exists w'. reflexivity.
Qed.

(** [sign] returns only what the pipeline has produced. *)
Lemma sign_returned self csr subjectDN subjectAltNames email w r w' :
  sign self csr subjectDN subjectAltNames email w = (Returned r, w') ->
  exists iss w1,
    sign_issue self csr subjectDN subjectAltNames email w = (Returned iss, w1) /\
    r = (bundle iss, None).
Proof.
  unfold sign. intros H.
  apply bind_returned in H as (iss & w1 & Hiss & H).
  apply bind_returned in H as (u & w2 & _ & H).
  apply ret_returned in H as [-> _].
  exists iss, w1. split; [exact Hiss | reflexivity].
Qed.

(** [sign] raises only what the pipeline has raised. *)
Lemma sign_raised self csr subjectDN subjectAltNames email w e w' :
  sign self csr subjectDN subjectAltNames email w = (Raised e, w') ->
  sign_issue self csr subjectDN subjectAltNames email w = (Raised e, w').
Proof.
  unfold sign. intros H.
  apply bind_raised in H as [H | (iss & w1 & Hiss & H)]; [exact H|].
  apply bind_raised in H as [H | (u & w2 & _ & H)].
  - destruct (try_except_print_returns
                (send_cert_issue_email self email subjectDN (tlsa_digest iss)) w1)
      as [w2 Hw2].
    rewrite Hw2 in H. discriminate H.
  - discriminate H.
Qed.

(** The statements before the notification do not touch the network. *)

Lemma ignores_network_ret {A} (a : A) : ignores_network (ret a).
Proof. intros net w. reflexivity. Qed.

Lemma ignores_network_raise {A} (e : exn) : ignores_network (@raise _ A e).
Proof. intros net w. reflexivity. Qed.

Lemma ignores_network_lift {A} (o : outcome A) : ignores_network (lift o).
Proof. intros net w. reflexivity. Qed.

Lemma ignores_network_print args : ignores_network (print args).
Proof. intros net w. reflexivity. Qed.

Lemma ignores_network_utcnow : ignores_network utcnow.
Proof. intros net w. reflexivity. Qed.

Lemma ignores_network_urandom n : ignores_network (urandom n).
Proof. intros net w. reflexivity. Qed.

Lemma ignores_network_generate_private_key e bits :
  ignores_network (generate_private_key e bits).
Proof. intros net w. reflexivity. Qed.

Lemma ignores_network_Popen args : ignores_network (Popen args).
Proof. intros net w. reflexivity. Qed.

Lemma ignores_network_file_flush f : ignores_network (file_flush f).
Proof. intros net w. reflexivity. Qed.

Lemma ignores_network_bind {A B} (m : M A) (f : A -> M B) :
  ignores_network m -> (forall a, ignores_network (f a)) ->
  ignores_network (bind m f).
Proof.
  intros Hm Hf net w. unfold bind. rewrite Hm.
  destruct (m w) as [[a|e] w1]; cbn [fst snd].
  - apply Hf.
  - reflexivity.
Qed.

Lemma ignores_network_mkstemp_inner attempts :
  ignores_network (mkstemp_inner attempts).
Proof.
  induction attempts as [|n IH]; intros net w.
  - reflexivity.
  - rewrite !mkstemp_inner_S. cbn [filesystem tmp_candidates set_network].
    destruct (filesystem w !! tmp_candidates w 0%nat).
    + apply (IH net (set_tmp_candidates (advance 1 (tmp_candidates w)) w)).
    + reflexivity.
Qed.

Lemma ignores_network_NamedTemporaryFile : ignores_network NamedTemporaryFile.
Proof.
  unfold NamedTemporaryFile. apply ignores_network_bind.
  - apply ignores_network_mkstemp_inner.
  - intros file. apply ignores_network_ret.
Qed.

Lemma ignores_network_file_close f : ignores_network (file_close f).
Proof.
  unfold file_close. apply ignores_network_bind.
  - apply ignores_network_file_flush.
  - intros f' net w. reflexivity.
Qed.

Lemma ignores_network_write_certfiles certs : forall files args,
  ignores_network (write_certfiles certs files args).
Proof.
  induction certs as [|cert certs IH]; intros files args.
  - apply ignores_network_ret.
  - rewrite write_certfiles_cons. apply ignores_network_bind.
    + apply ignores_network_NamedTemporaryFile.
    + intros f. apply ignores_network_bind.
      * apply ignores_network_file_flush.
      * intros f'. apply IH.
Qed.

Lemma ignores_network_close_files files : ignores_network (close_files files).
Proof.
  induction files as [|f files IH].
  - apply ignores_network_ret.
  - cbn [close_files]. apply ignores_network_bind.
    + apply ignores_network_file_close.
    + intros _. exact IH.
Qed.

End Notification.

(** A sequence of statements ignores the network when each of them does. *)
Ltac ignores_network :=
  repeat lazymatch goal with
  | |- ignores_network (bind _ _) =>
      apply ignores_network_bind; [| intros ?; cbv beta]
  | |- ignores_network (ret _) => apply ignores_network_ret
  | |- ignores_network (lift _) => apply ignores_network_lift
  | |- ignores_network (print _) => apply ignores_network_print
  | |- ignores_network utcnow => apply ignores_network_utcnow
  | |- ignores_network (urandom _) => apply ignores_network_urandom
  | |- ignores_network (generate_private_key _ _) =>
      apply ignores_network_generate_private_key
  | |- ignores_network (Popen _) => apply ignores_network_Popen
  | |- ignores_network (write_certfiles _ _ _) =>
      apply ignores_network_write_certfiles
  | |- ignores_network (close_files _) => apply ignores_network_close_files
  | |- ignores_network (let _ := _ in _) => cbv zeta
  | |- ignores_network _ => solve [auto]
  end.

Section NetworkIndependence.
Context {P : Platform}.

Lemma ignores_network_int_uuid4 : ignores_network int_uuid4.
Proof. unfold int_uuid4. ignores_network. Qed.

Lemma ignores_network_random_serial_number : ignores_network random_serial_number.
Proof. unfold random_serial_number. ignores_network. Qed.

Lemma ignores_network_create_fullchain self certs :
  ignores_network (create_fullchain self certs).
Proof. unfold create_fullchain. ignores_network. Qed.

Lemma ignores_network_generate_ephemeral_ca self :
  ignores_network (generate_ephemeral_ca self).
Proof.
  unfold generate_ephemeral_ca.
  pose proof ignores_network_int_uuid4 as Huuid. ignores_network.
Qed.

Lemma ignores_network_sign_issue self csr subjectDN subjectAltNames email :
  ignores_network (sign_issue self csr subjectDN subjectAltNames email).
Proof.
  unfold sign_issue.
  pose proof ignores_network_random_serial_number.
  pose proof (ignores_network_generate_ephemeral_ca self).
  pose proof (ignores_network_create_fullchain self).
  ignores_network.
Qed.

(** The pipeline does not read the configuration of the backend. *)
Lemma sign_issue_any_backend self self' csr subjectDN subjectAltNames email :
  sign_issue self csr subjectDN subjectAltNames email
  = sign_issue self' csr subjectDN subjectAltNames email.
Proof.
  unfold sign_issue, generate_ephemeral_ca, create_fullchain. reflexivity.
Qed.

End NetworkIndependence.

(* ===================================================================== *)
(** ** Digests and serial numbers *)
(* ===================================================================== *)

Section Numbers.

Lemma int_to_bytes_big_length n : forall z, length (int_to_bytes_big n z) = n.
Proof.
  induction n as [|n IH]; intros z; cbn [int_to_bytes_big].
  - reflexivity.
  - rewrite length_app, IH. cbn [length]. lia.
Qed.

(** A SHA-256 digest has 32 bytes. *)
Lemma sha256_length data : length (hashlib.sha256 data) = 32%nat.
Proof.
  unfold hashlib.sha256, hashlib.output.
  generalize (fold_left hashlib.compress
    (hashlib.chunks 64 (length (hashlib.pad data)) (hashlib.pad data))
    hashlib.initial).
  intros s. cbn [flat_map].
  rewrite !length_app, !int_to_bytes_big_length. reflexivity.
Qed.

Lemma hexlify_length bs :
  String.length (hashlib.hexlify bs) = (2 * length bs)%nat.
Proof.
  induction bs as [|b bs IH]; cbn [hashlib.hexlify String.length length].
  - reflexivity.
  - rewrite IH. lia.
Qed.

Lemma hexdigit_lower n : is_lower_hex (hashlib.hexdigit n) = true.
Proof.
  unfold hashlib.hexdigit. generalize (Z.to_nat n). intros k.
  do 16 (destruct k as [|k]; [reflexivity|]).
  reflexivity.
Qed.

Lemma hexlify_lower bs :
  forallb is_lower_hex (list_ascii_of_string (hashlib.hexlify bs)) = true.
Proof.
  induction bs as [|b bs IH];
    cbn [hashlib.hexlify list_ascii_of_string forallb].
  - reflexivity.
  - rewrite !hexdigit_lower, IH. reflexivity.
Qed.

Lemma Z_of_byte_range b : 0 <= Z_of_byte b < 256.
Proof.
  unfold Z_of_byte. pose proof (Byte.to_N_bounded b) as Hb. lia.
Qed.

Lemma fold_bytes_range bs : forall acc n,
  0 <= acc < 256 ^ n -> 0 <= n ->
  0 <= fold_left (fun a b => a * 256 + Z_of_byte b) bs acc
    < 256 ^ (n + Z.of_nat (length bs)).
Proof.
  induction bs as [|b bs IH]; intros acc n Hacc Hn; cbn [fold_left length].
  - rewrite Z.add_0_r. exact Hacc.
  - replace (n + Z.of_nat (S (length bs)))
      with ((n + 1) + Z.of_nat (length bs)) by lia.
    apply IH; [|lia].
    pose proof (Z_of_byte_range b).
    rewrite Z.pow_add_r, Z.pow_1_r by lia. nia.
Qed.

(** [int.from_bytes] of [n] bytes is below [256^n]. *)
Lemma int_from_bytes_big_range bs :
  0 <= int_from_bytes_big bs < 256 ^ Z.of_nat (length bs).
Proof.
  unfold int_from_bytes_big.
  apply (fold_bytes_range bs 0 0); [rewrite Z.pow_0_r; lia | lia].
Qed.

(** A number is below [2^n] when it has no bit at or above [n]. *)
Lemma below_pow2_of_bits n x :
  0 <= n -> (forall k, n <= k -> Z.testbit x k = false) -> 0 <= x < 2 ^ n.
Proof.
  intros Hn Hbits.
  assert (Hx : x mod 2 ^ n = x).
  { apply Z.bits_inj'. intros k Hk.
    destruct (Z.lt_ge_cases k n) as [Hlt|Hge].
    - apply Z.mod_pow2_bits_low. exact Hlt.
    - rewrite Z.mod_pow2_bits_high by lia. symmetry. apply Hbits. exact Hge. }
  rewrite <- Hx. apply Z.mod_pos_bound. apply Z.pow_pos_nonneg; lia.
Qed.

Lemma bits_of_below_pow2 n x k :
  0 <= x < 2 ^ n -> 0 <= n <= k -> Z.testbit x k = false.
Proof.
  intros Hx Hk. rewrite <- (Z.mod_small x (2 ^ n)) by exact Hx.
  apply Z.mod_pow2_bits_high. exact Hk.
Qed.

(** Setting the variant and the version keeps a UUID on 128 bits. *)
Lemma uuid_with_version4_range b :
  length b = 16%nat -> 0 <= uuid_with_version4 b < 2 ^ 128.
Proof.
  intros Hlen. pose proof (int_from_bytes_big_range b) as Hi.
  rewrite Hlen in Hi. change (256 ^ Z.of_nat 16) with (2 ^ 128) in Hi.
  unfold uuid_with_version4. cbv zeta.
  apply below_pow2_of_bits; [lia|]. intros k Hk.
  rewrite Z.lor_spec, Z.land_spec, Z.lor_spec, Z.land_spec, !Z.lnot_spec by lia.
  assert (Hvariant : 0 <= Z.shiftl 0x8000 48 < 2 ^ 128)
    by (cbv; split; [discriminate | reflexivity]).
  assert (Hversion : 0 <= Z.shiftl 4 76 < 2 ^ 128)
    by (cbv; split; [discriminate | reflexivity]).
  assert (Hrange : 0 <= 128 <= k) by lia.
  rewrite (bits_of_below_pow2 128 (int_from_bytes_big b) k Hi Hrange).
  rewrite (bits_of_below_pow2 128 _ k Hvariant Hrange).
  rewrite (bits_of_below_pow2 128 _ k Hversion Hrange).
  reflexivity.
Qed.

Lemma map_seq_length {A} (f : nat -> A) start n :
  length (map f (seq start n)) = n.
Proof. rewrite length_map, length_seq. reflexivity. Qed.

(** [x509.random_serial_number()] is on 159 bits. *)
Lemma shifted_20_bytes_range b :
  length b = 20%nat -> 0 <= Z.shiftr (int_from_bytes_big b) 1 < 2 ^ 159.
Proof.
  intros Hlen. pose proof (int_from_bytes_big_range b) as Hi.
  rewrite Hlen in Hi. change (256 ^ Z.of_nat 20) with (2 * 2 ^ 159) in Hi.
  rewrite Z.shiftr_div_pow2 by lia. change (2 ^ 1) with 2.
  split.
  - apply Z.div_pos; lia.
  - apply Z.div_lt_upper_bound; lia.
Qed.

End Numbers.

(* ===================================================================== *)
(** ** The small platform *)
(* ===================================================================== *)

Section DemoToolchain.

Lemma demo_unframe_frame c : forall cur rest,
  Demo.unframe cur (Demo.frame c ++ rest)
  = cons (rev cur ++ c) <$> Demo.unframe [] rest.
Proof.
  induction c as [|b c IH]; intros cur rest.
  - cbn [Demo.frame app Demo.unframe]. rewrite app_nil_r. reflexivity.
  - cbn [Demo.frame app Demo.unframe]. rewrite IH.
    cbn [rev]. rewrite <- app_assoc. reflexivity.
Qed.

Lemma demo_unframe_flat_map cs :
  Demo.unframe [] (flat_map Demo.frame cs) = Some cs.
Proof.
  induction cs as [|c cs IH]; cbn [flat_map].
  - reflexivity.
  - rewrite demo_unframe_frame, IH. reflexivity.
Qed.

(** Reading back a bundle gives the certificates it was made from. *)
Lemma demo_pkcs7_roundtrip cs :
  Demo.pkcs7_decode (Demo.pkcs7_encode cs) = Some cs.
Proof.
  unfold Demo.pkcs7_encode, Demo.pkcs7_decode. apply demo_unframe_flat_map.
Qed.

Lemma demo_certfiles_arguments names :
  Demo.certfiles (certfile_arguments names) = names.
Proof.
  induction names as [|name names IH].
  - reflexivity.
  - change (certfile_arguments (name :: names))
      with ("-certfile" :: name :: certfile_arguments names).
    change (Demo.certfiles ("-certfile" :: name :: certfile_arguments names))
      with (name :: Demo.certfiles (certfile_arguments names)).
    rewrite IH. reflexivity.
Qed.

Lemma demo_certfiles_command names :
  Demo.certfiles (openssl_command (certfile_arguments names)) = names.
Proof.
  change (Demo.certfiles (openssl_command (certfile_arguments names)))
    with (Demo.certfiles (certfile_arguments names)).
  apply demo_certfiles_arguments.
Qed.

Lemma demo_holds_certificate (c : Certificate (@PublicKey Demo.platform)) :
  Demo.holds_certificate (@public_bytes_pem Demo.platform c) = true.
Proof. reflexivity. Qed.

Lemma demo_filter_certificates
    (certs : list (Certificate (@PublicKey Demo.platform))) :
  List.filter Demo.holds_certificate (map (@public_bytes_pem Demo.platform) certs)
  = map (@public_bytes_pem Demo.platform) certs.
Proof.
  induction certs as [|c certs IH]; [reflexivity|].
  cbn [map List.filter]. rewrite demo_holds_certificate, IH. reflexivity.
Qed.

Lemma mapM_certificate_files {A} (encode_cert : A -> bytes)
    (fs : gmap string bytes) names certs :
  Forall2 (fun name cert => fs !! name = Some (encode_cert cert)) names certs ->
  mapM (fun name => fs !! name) names = Some (map encode_cert certs).
Proof.
  induction 1 as [|name cert names certs Hread _ IH]; [reflexivity|].
  rewrite mapM_cons, Hread, IH. reflexivity.
Qed.

(** The toolchain of the small platform keeps its contract, and it does so
    although a file without a certificate gives it a bundle without that
    file. *)
Lemma demo_toolchain_assembles : toolchain_assembles Demo.world.
Proof.
  intros names fs certs proc _ Hfiles H _.
  change (Demo.openssl_ok (openssl_command (certfile_arguments names)) fs
          = Returned proc) in H.
  change (Demo.pkcs7_decode (proc_stdout proc)
          = Some (map (@public_bytes_pem Demo.platform) certs)).
  unfold Demo.openssl_ok in H. rewrite demo_certfiles_command in H.
  rewrite (mapM_certificate_files _ _ _ _ Hfiles) in H.
  inversion H. cbn [proc_stdout].
  rewrite demo_filter_certificates. apply demo_pkcs7_roundtrip.
Qed.

(** A file that holds no certificate: exit status 0 and a bundle of no
    certificate. *)
Example demo_toolchain_skips_other_files :
  Demo.openssl_ok (openssl_command (certfile_arguments ["a.pem"]))
    {[ "a.pem" := encode "stale" ]}
  = Returned (mkCompleted (Demo.pkcs7_encode []) 0).
Proof. vm_compute. reflexivity. Qed.

End DemoToolchain.

(* ===================================================================== *)
(** ** Properties of [sign] *)
(* ===================================================================== *)

Section Sign.
Context {P : Platform}.

Lemma mapM_two {A B} (f : A -> option B) (l : list A) (a b : B) :
  mapM f l = Some [a; b] ->
  exists x y, l = [x; y] /\ f x = Some a /\ f y = Some b.
Proof.
  intros H. apply mapM_Some in H.
  inversion H as [|x a' l1 k1 Hx H1]; subst.
  inversion H1 as [|y b' l2 k2 Hy H2]; subst.
  inversion H2; subst.
  exists x, y. auto.
Qed.

Lemma get_values_map_DNSName names :
  get_values_for_type_DNSName (map DNSName names) = names.
Proof.
  induction names as [|n names IH]; cbn [map get_values_for_type_DNSName].
  - reflexivity.
  - f_equal. exact IH.
Qed.

(** A datetime is less than a second after its whole second. *)
Lemma whole_seconds_bounds t :
  whole_seconds t <= t < whole_seconds t + 1000000.
Proof.
  unfold whole_seconds.
  pose proof (Z.mod_pos_bound t 1000000 ltac:(lia)).
  pose proof (Z.div_mod t 1000000 ltac:(lia)).
  lia.
Qed.

(** A number of days is a number of whole seconds. *)
Lemma whole_seconds_add_days t d :
  whole_seconds (t + days d) = whole_seconds t + days d.
Proof.
  unfold whole_seconds, days.
  replace (t + d * 86400 * 1000000) with (t + (d * 86400) * 1000000) by lia.
  rewrite Z.div_add by lia. lia.
Qed.

Lemma whole_seconds_sub_days t d :
  whole_seconds (t - days d) = whole_seconds t - days d.
Proof.
  replace (t - days d) with (t + days (- d)) by (unfold days; lia).
  rewrite whole_seconds_add_days. unfold days. lia.
Qed.

(** A run of [sign] that returned went through the whole pipeline. *)
Lemma sign_returned_issuance self csr subjectDN subjectAltNames email w r w' :
  sign self csr subjectDN subjectAltNames email w = (Returned r, w') ->
  exists iss w1,
    sign_issue self csr subjectDN subjectAltNames email w = (Returned iss, w1) /\
    r = (bundle iss, None) /\
    issuance w csr subjectDN subjectAltNames iss.
Proof.
  intros H. apply sign_returned in H as (iss & w1 & Hiss & ->).
  exists iss, w1. split; [exact Hiss|]. split; [reflexivity|].
  exact (sign_issue_returned _ _ _ _ _ _ _ _ Hiss).
Qed.


(** C2: the issuer of the leaf is the leaf's own subject, the
    one-attribute name [CN=subjectDN]; it is not the subject of the CA, whose
    key nevertheless signs the leaf. *)
Theorem leaf_issuer_is_own_subject
    self csr subjectDN subjectAltNames email w r w' :
  sign self csr subjectDN subjectAltNames email w = (Returned r, w') ->
  exists iss w1,
    sign_issue self csr subjectDN subjectAltNames email w = (Returned iss, w1) /\
    r = (bundle iss, None) /\
    cert_issuer (certificate iss) = [mkNameAttribute COMMON_NAME subjectDN] /\
    cert_issuer (certificate iss) = cert_subject (certificate iss) /\
    cert_subject (ca_cert iss) = ca_name /\
    cert_issuer (certificate iss) <> cert_subject (ca_cert iss) /\
    sign_tbs (ca_privkey iss) SHA256 (tbs_certificate (certificate iss))
    = Returned (signature (certificate iss)).
Proof.
  intros H. apply sign_returned_issuance in H as (iss & w1 & Hrun & -> & Hiss).
  exists iss, w1.
  pose proof (iss_issuer _ _ _ _ _ Hiss) as Hi.
  pose proof (iss_subject _ _ _ _ _ Hiss) as Hs.
  pose proof (iss_ca_subject _ _ _ _ _ Hiss) as Hc.
  split; [exact Hrun|]. split; [reflexivity|]. split; [exact Hi|].
  split; [rewrite Hi, Hs; reflexivity|]. split; [exact Hc|].
  split; [rewrite Hi, Hc; discriminate|].
  exact (iss_signed _ _ _ _ _ Hiss).
Qed.

(** C3: the public key of the leaf is the public key of the request. *)
Theorem leaf_public_key_is_csr_key
    self csr subjectDN subjectAltNames email w r w' :
  sign self csr subjectDN subjectAltNames email w = (Returned r, w') ->
  exists iss w1 csr_obj,
    sign_issue self csr subjectDN subjectAltNames email w = (Returned iss, w1) /\
    r = (bundle iss, None) /\
    parse_der_csr csr = Some csr_obj /\
    cert_public_key (certificate iss) = csr_public_key csr_obj /\
    public_bytes_spki_der (cert_public_key (certificate iss))
    = public_bytes_spki_der (csr_public_key csr_obj).
Proof.
  intros H. apply sign_returned_issuance in H as (iss & w1 & Hrun & -> & Hiss).
  destruct (iss_csr _ _ _ _ _ Hiss) as (csr_obj & Hparse & Hkey).
  exists iss, w1, csr_obj. rewrite Hkey. auto.
Qed.

(** C4: the toolchain is run on a command line that names the file of the
    CA certificate and then the file of the leaf certificate; the bundle is
    what it wrote to its standard output, taken as it is. When that run
    exits with status 0 and the toolchain keeps its contract on certificate
    files, the bundle holds exactly the CA certificate and then the leaf
    certificate. *)
Theorem bundle_is_toolchain_output
    self csr subjectDN subjectAltNames email w r w' :
  sign self csr subjectDN subjectAltNames email w = (Returned r, w') ->
  exists iss w1 ca_file leaf_file fs proc,
    sign_issue self csr subjectDN subjectAltNames email w = (Returned iss, w1) /\
    r = (bundle iss, None) /\
    ca_file <> leaf_file /\
    fs !! ca_file = Some (public_bytes_pem (ca_cert iss)) /\
    fs !! leaf_file = Some (public_bytes_pem (certificate iss)) /\
    programs w
      (openssl_command ["-certfile"; ca_file; "-certfile"; leaf_file]) fs
    = Returned proc /\
    bundle iss = proc_stdout proc /\
    (toolchain_assembles w ->
     proc_returncode proc = 0 ->
     pkcs7_certificates (bundle iss)
     = Some [public_bytes_pem (ca_cert iss);
             public_bytes_pem (certificate iss)]).
Proof.
  intros H. apply sign_returned_issuance in H as (iss & w1 & Hrun & -> & Hiss).
  destruct (iss_bundle _ _ _ _ _ Hiss)
    as (names & fs & proc & Hnodup & Hread & Hproc & Hout).
  destruct (mapM_two _ _ _ _ Hread) as (ca_file & leaf_file & -> & Hca & Hleaf).
  exists iss, w1, ca_file, leaf_file, fs, proc.
  split; [exact Hrun|]. split; [reflexivity|].
  split.
  { intros ->. apply NoDup_cons_1_1 in Hnodup. apply Hnodup. left. }
  split; [exact Hca|]. split; [exact Hleaf|]. split; [exact Hproc|].
  split; [exact Hout|].
  intros Hcontract Hstatus. rewrite Hout.
  apply (Hcontract [ca_file; leaf_file] fs [ca_cert iss; certificate iss] proc).
  - discriminate.
  - constructor; [exact Hca|]. constructor; [exact Hleaf|]. constructor.
  - exact Hproc.
  - exact Hstatus.
Qed.

(** C5: the digest is the SHA-256 hash of the DER SubjectPublicKeyInfo of the
    leaf's public key, as 64 lowercase hexadecimal digits. *)
Theorem digest_is_sha256_of_spki
    self csr subjectDN subjectAltNames email w r w' :
  sign self csr subjectDN subjectAltNames email w = (Returned r, w') ->
  exists iss w1,
    sign_issue self csr subjectDN subjectAltNames email w = (Returned iss, w1) /\
    r = (bundle iss, None) /\
    tlsa_digest iss
    = hashlib.hexlify
        (hashlib.sha256
           (public_bytes_spki_der (cert_public_key (certificate iss)))) /\
    String.length (tlsa_digest iss) = 64%nat /\
    forallb is_lower_hex (list_ascii_of_string (tlsa_digest iss)) = true.
Proof.
  intros H. apply sign_returned_issuance in H as (iss & w1 & Hrun & -> & Hiss).
  exists iss, w1. rewrite (iss_digest _ _ _ _ _ Hiss).
  unfold hashlib.sha256_hexdigest.
  split; [exact Hrun|]. split; [reflexivity|]. split; [reflexivity|].
  split.
  - rewrite hexlify_length, sha256_length. reflexivity.
  - apply hexlify_lower.
Qed.

(** C6: once the pipeline has produced the bundle, [sign] returns
    [(bundle, None)] whatever the notification does: with any network, and
    with any configuration of the backend. *)
Theorem notification_failure_is_swallowed
    self csr subjectDN subjectAltNames email w iss w1 :
  sign_issue self csr subjectDN subjectAltNames email w = (Returned iss, w1) ->
  (exists w', sign self csr subjectDN subjectAltNames email w
              = (Returned (bundle iss, None), w')) /\
  (forall self' net, exists w',
     sign self' csr subjectDN subjectAltNames email (set_network net w)
     = (Returned (bundle iss, None), w')).
Proof.
  intros H. split.
  - exact (sign_after_issue _ _ _ _ _ _ _ _ H).
  - intros self' net.
    apply (sign_after_issue self' csr subjectDN subjectAltNames email
             (set_network net w) iss (set_network net w1)).
    rewrite (sign_issue_any_backend self' self).
    rewrite ignores_network_sign_issue, H. reflexivity.
Qed.

(** C7: each certificate is valid from one reading of the clock
    minus 5 days to the next reading plus 5 days, both without their
    microseconds: the CA from the first and second readings of the call, the
    leaf from the third and fourth. The window is 10 days plus the whole
    seconds between the seconds of the two readings, 10 days exactly when
    both readings fall in the same second, and each reading is strictly
    inside its end of the window. *)
Theorem validity_window_from_two_readings
    self csr subjectDN subjectAltNames email w r w' :
  sign self csr subjectDN subjectAltNames email w = (Returned r, w') ->
  exists iss w1,
    sign_issue self csr subjectDN subjectAltNames email w = (Returned iss, w1) /\
    r = (bundle iss, None) /\
    cert_not_valid_before (ca_cert iss)
    = whole_seconds (clock w 0%nat - days 5) /\
    cert_not_valid_after (ca_cert iss)
    = whole_seconds (clock w 1%nat + days 5) /\
    cert_not_valid_before (certificate iss)
    = whole_seconds (clock w 2%nat - days 5) /\
    cert_not_valid_after (certificate iss)
    = whole_seconds (clock w 3%nat + days 5) /\
    cert_not_valid_after (ca_cert iss) - cert_not_valid_before (ca_cert iss)
    = days 10 + (whole_seconds (clock w 1%nat) - whole_seconds (clock w 0%nat)) /\
    cert_not_valid_after (certificate iss)
      - cert_not_valid_before (certificate iss)
    = days 10 + (whole_seconds (clock w 3%nat) - whole_seconds (clock w 2%nat)) /\
    (cert_not_valid_after (ca_cert iss) - cert_not_valid_before (ca_cert iss)
     = days 10
     <-> whole_seconds (clock w 0%nat) = whole_seconds (clock w 1%nat)) /\
    (cert_not_valid_after (certificate iss)
       - cert_not_valid_before (certificate iss)
     = days 10
     <-> whole_seconds (clock w 2%nat) = whole_seconds (clock w 3%nat)) /\
    cert_not_valid_before (ca_cert iss) < clock w 0%nat /\
    clock w 1%nat < cert_not_valid_after (ca_cert iss) /\
    cert_not_valid_before (certificate iss) < clock w 2%nat /\
    clock w 3%nat < cert_not_valid_after (certificate iss).
Proof.
  intros H. apply sign_returned_issuance in H as (iss & w1 & Hrun & -> & Hiss).
  exists iss, w1.
  rewrite (iss_ca_not_before _ _ _ _ _ Hiss), (iss_ca_not_after _ _ _ _ _ Hiss),
    (iss_not_before _ _ _ _ _ Hiss), (iss_not_after _ _ _ _ _ Hiss).
  change TIME_DELTA with (days 5).
  rewrite !whole_seconds_sub_days, !whole_seconds_add_days.
  pose proof (whole_seconds_bounds (clock w 0%nat)) as H0.
  pose proof (whole_seconds_bounds (clock w 1%nat)) as H1.
  pose proof (whole_seconds_bounds (clock w 2%nat)) as H2.
  pose proof (whole_seconds_bounds (clock w 3%nat)) as H3.
  unfold days.
  split; [exact Hrun|]. split; [reflexivity|].
  split; [reflexivity|]. split; [reflexivity|].
  split; [reflexivity|]. split; [reflexivity|].
  split; [lia|]. split; [lia|].
  split; [split; lia|]. split; [split; lia|].
  split; [lia|]. split; [lia|]. split; lia.
Qed.

(** C8: the leaf carries one extension, a subject alternative name marked
    non-critical, whose DNS names are the input names, in order. *)
Theorem leaf_san_is_input
    self csr subjectDN subjectAltNames email w r w' :
  sign self csr subjectDN subjectAltNames email w = (Returned r, w') ->
  exists iss w1 san,
    sign_issue self csr subjectDN subjectAltNames email w = (Returned iss, w1) /\
    r = (bundle iss, None) /\
    cert_extensions (certificate iss)
    = [mkExtension (SubjectAlternativeName san) false] /\
    get_values_for_type_DNSName san = subjectAltNames.
Proof.
  intros H. apply sign_returned_issuance in H as (iss & w1 & Hrun & -> & Hiss).
  exists iss, w1, (map DNSName subjectAltNames).
  split; [exact Hrun|]. split; [reflexivity|].
  split; [exact (iss_extensions _ _ _ _ _ Hiss)|].
  apply get_values_map_DNSName.
Qed.

(** C9: the serial number of the CA is a version-4 UUID read as
    an integer, below [2^128]; the serial number of the leaf comes from
    [x509.random_serial_number()]: 20 random bytes shifted right by one bit,
    below [2^159]. *)
Theorem serial_number_ranges
    self csr subjectDN subjectAltNames email w r w' :
  sign self csr subjectDN subjectAltNames email w = (Returned r, w') ->
  exists iss w1,
    sign_issue self csr subjectDN subjectAltNames email w = (Returned iss, w1) /\
    r = (bundle iss, None) /\
    cert_serial_number (ca_cert iss)
    = uuid_with_version4 (map (entropy w) (seq 0 16)) /\
    0 <= cert_serial_number (ca_cert iss) < 2 ^ 128 /\
    cert_serial_number (certificate iss)
    = Z.shiftr (int_from_bytes_big (map (entropy w) (seq 16 20))) 1 /\
    0 <= cert_serial_number (certificate iss) < 2 ^ 159.
Proof.
  intros H. apply sign_returned_issuance in H as (iss & w1 & Hrun & -> & Hiss).
  exists iss, w1.
  rewrite (iss_ca_serial _ _ _ _ _ Hiss), (iss_serial _ _ _ _ _ Hiss).
  split; [exact Hrun|]. split; [reflexivity|]. split; [reflexivity|].
  split; [apply uuid_with_version4_range, map_seq_length|].
  split; [reflexivity|].
  apply shifted_20_bytes_range, map_seq_length.
Qed.

(** C10: when [sign] returns, the error slot is [None]; what failed before
    the notification is raised, and [sign] raises nothing else. *)
Theorem error_slot_is_always_None
    self csr subjectDN subjectAltNames email w r w' :
  sign self csr subjectDN subjectAltNames email w = (Returned r, w') ->
  snd r = None /\
  exists iss w1,
    sign_issue self csr subjectDN subjectAltNames email w = (Returned iss, w1) /\
    fst r = bundle iss.
Proof.
  intros H. apply sign_returned in H as (iss & w1 & Hiss & ->).
  split; [reflexivity|]. exists iss, w1. split; [exact Hiss | reflexivity].
Qed.

End Sign.

(* ===================================================================== *)
(** ** The properties on the small platform *)
(* ===================================================================== *)

(** A run on the small platform is evaluated; when it returned, the theorem
    [thm] about runs of [sign] that returned applies to it. *)
Ltac on_returned_run thm :=
  unfold returned_with;
  lazymatch goal with
  | |- match ?run with _ => _ end =>
      let Hret := fresh "Hret" in
      let E := fresh "E" in
      assert (Hret : is_returned run = true) by (vm_compute; reflexivity);
      destruct run as [[r|e] w'] eqn:E;
      [ exact (thm _ _ _ _ _ _ _ _ _ E) | discriminate Hret ]
  end.



(** The issuer of the leaf is [CN=example.test]; the subject of the CA is the
    three-attribute name of the ephemeral CA. *)
Lemma leaf_issuer_is_not_ca_subject :
  returned_with
    (sign_issue Demo.backend Demo.csr Demo.subjectDN Demo.subjectAltNames
       Demo.email Demo.world)
    (fun iss => cert_issuer (certificate iss) <> cert_subject (ca_cert iss)) /\
  is_returned
    (sign Demo.backend Demo.csr Demo.subjectDN Demo.subjectAltNames Demo.email
       Demo.world) = true.
Proof.
  split.
  - vm_compute. discriminate.
  - vm_compute. reflexivity.
Qed.

Lemma leaf_issuer_is_own_subject_witness :
  returned_with
    (sign Demo.backend Demo.csr Demo.subjectDN Demo.subjectAltNames Demo.email
       Demo.world)
    (fun r => exists iss w1,
       sign_issue Demo.backend Demo.csr Demo.subjectDN Demo.subjectAltNames
         Demo.email Demo.world = (Returned iss, w1) /\
       r = (bundle iss, None) /\
       cert_issuer (certificate iss)
       = [mkNameAttribute COMMON_NAME Demo.subjectDN] /\
       cert_issuer (certificate iss) = cert_subject (certificate iss) /\
       cert_subject (ca_cert iss) = ca_name /\
       cert_issuer (certificate iss) <> cert_subject (ca_cert iss) /\
       sign_tbs (ca_privkey iss) SHA256 (tbs_certificate (certificate iss))
       = Returned (signature (certificate iss))).
Proof. on_returned_run (@leaf_issuer_is_own_subject). Defined.

Lemma leaf_public_key_is_csr_key_witness :
  returned_with
    (sign Demo.backend Demo.csr Demo.subjectDN Demo.subjectAltNames Demo.email
       Demo.world)
    (fun r => exists iss w1 csr_obj,
       sign_issue Demo.backend Demo.csr Demo.subjectDN Demo.subjectAltNames
         Demo.email Demo.world = (Returned iss, w1) /\
       r = (bundle iss, None) /\
       parse_der_csr Demo.csr = Some csr_obj /\
       cert_public_key (certificate iss) = csr_public_key csr_obj /\
       public_bytes_spki_der (cert_public_key (certificate iss))
       = public_bytes_spki_der (csr_public_key csr_obj)).
Proof. on_returned_run (@leaf_public_key_is_csr_key). Defined.

(** The request is valid and [sign] returns, but the bundle is empty: it does
    not hold the CA certificate and the leaf certificate. *)
Lemma bundle_may_hold_no_certificate :
  returned_with
    (sign_issue Demo.backend Demo.csr Demo.subjectDN Demo.subjectAltNames
       Demo.email Demo.world_openssl_exits_1)
    (fun iss : @Issued Demo.platform =>
       bundle iss = [] /\
       @pkcs7_certificates Demo.platform (bundle iss)
       <> Some [public_bytes_pem (ca_cert iss);
                public_bytes_pem (certificate iss)]) /\
  returned_with
    (sign Demo.backend Demo.csr Demo.subjectDN Demo.subjectAltNames Demo.email
       Demo.world_openssl_exits_1)
    (fun r => r = ([], None)).
Proof.
  split.
  - vm_compute. split; [reflexivity | discriminate].
  - vm_compute. reflexivity.
Qed.

(** On the small platform the toolchain keeps its contract and exits with
    status 0: the bundle holds the CA certificate and then the leaf. *)
Lemma bundle_is_toolchain_output_witness :
  toolchain_assembles Demo.world /\
  returned_with
    (sign Demo.backend Demo.csr Demo.subjectDN Demo.subjectAltNames Demo.email
       Demo.world)
    (fun r => exists iss w1 ca_file leaf_file fs proc,
       sign_issue Demo.backend Demo.csr Demo.subjectDN Demo.subjectAltNames
         Demo.email Demo.world = (Returned iss, w1) /\
       r = (bundle iss, None) /\
       ca_file <> leaf_file /\
       fs !! ca_file = Some (public_bytes_pem (ca_cert iss)) /\
       fs !! leaf_file = Some (public_bytes_pem (certificate iss)) /\
       programs Demo.world
         (openssl_command ["-certfile"; ca_file; "-certfile"; leaf_file]) fs
       = Returned proc /\
       bundle iss = proc_stdout proc /\
       proc_returncode proc = 0 /\
       @pkcs7_certificates Demo.platform (bundle iss)
       = Some [public_bytes_pem (ca_cert iss);
               public_bytes_pem (certificate iss)]).
Proof.
  split; [exact demo_toolchain_assembles|].
  unfold returned_with.
  assert (Hret : is_returned
            (sign Demo.backend Demo.csr Demo.subjectDN Demo.subjectAltNames
               Demo.email Demo.world) = true)
    by (vm_compute; reflexivity).
  destruct (sign Demo.backend Demo.csr Demo.subjectDN Demo.subjectAltNames
              Demo.email Demo.world)
    as [[r|e] w'] eqn:E; [|discriminate Hret].
  destruct (bundle_is_toolchain_output _ _ _ _ _ _ _ _ E)
    as (iss & w1 & ca_file & leaf_file & fs & proc
        & Hrun & Hr & Hne & Hca & Hleaf & Hproc & Hout & Hholds).
  assert (Hstatus : proc_returncode proc = 0).
  { change (Demo.openssl_ok
              (openssl_command (certfile_arguments [ca_file; leaf_file])) fs
            = Returned proc) in Hproc.
    unfold Demo.openssl_ok in Hproc. rewrite demo_certfiles_command in Hproc.
    rewrite !mapM_cons, Hca, Hleaf in Hproc.
    inversion Hproc. reflexivity. }
  exists iss, w1, ca_file, leaf_file, fs, proc.
  split; [exact Hrun|]. split; [exact Hr|]. split; [exact Hne|].
  split; [exact Hca|]. split; [exact Hleaf|]. split; [exact Hproc|].
  split; [exact Hout|]. split; [exact Hstatus|].
  exact (Hholds demo_toolchain_assembles Hstatus).
Defined.

Lemma digest_is_sha256_of_spki_witness :
  returned_with
    (sign Demo.backend Demo.csr Demo.subjectDN Demo.subjectAltNames Demo.email
       Demo.world)
    (fun r => exists iss w1,
       sign_issue Demo.backend Demo.csr Demo.subjectDN Demo.subjectAltNames
         Demo.email Demo.world = (Returned iss, w1) /\
       r = (bundle iss, None) /\
       tlsa_digest iss
       = hashlib.hexlify
           (hashlib.sha256
              (public_bytes_spki_der (cert_public_key (certificate iss)))) /\
       String.length (tlsa_digest iss) = 64%nat /\
       forallb is_lower_hex (list_ascii_of_string (tlsa_digest iss)) = true).
Proof. on_returned_run (@digest_is_sha256_of_spki). Defined.

(** The sink refuses the connection and the backend has no [sendgrid]
    configuration: [sign] returns the bundle of the pipeline all the same. *)
Lemma notification_failure_is_swallowed_witness :
  returned_with
    (sign_issue Demo.backend Demo.csr Demo.subjectDN Demo.subjectAltNames
       Demo.email Demo.world)
    (fun iss =>
       (exists w',
          sign Demo.backend Demo.csr Demo.subjectDN Demo.subjectAltNames
            Demo.email Demo.world
          = (Returned (bundle iss, None), w')) /\
       (exists w',
          sign Demo.backend Demo.csr Demo.subjectDN Demo.subjectAltNames
            Demo.email Demo.world_sink_down
          = (Returned (bundle iss, None), w')) /\
       (exists w',
          sign Demo.backend_unconfigured Demo.csr Demo.subjectDN
            Demo.subjectAltNames Demo.email Demo.world_sink_down
          = (Returned (bundle iss, None), w'))).
Proof.
  unfold returned_with.
  assert (Hret : is_returned
            (sign_issue Demo.backend Demo.csr Demo.subjectDN
               Demo.subjectAltNames Demo.email Demo.world) = true)
    by (vm_compute; reflexivity).
  destruct (sign_issue Demo.backend Demo.csr Demo.subjectDN
              Demo.subjectAltNames Demo.email Demo.world)
    as [[iss|e] w1] eqn:E; [|discriminate Hret].
  destruct (notification_failure_is_swallowed _ _ _ _ _ _ _ _ E)
    as [Hsame Hany].
  split; [exact Hsame|]. split.
  - exact (Hany Demo.backend _).
  - exact (Hany Demo.backend_unconfigured _).
Defined.

(** The clock moves by one microsecond between the two readings taken for
    the CA certificate, from the last microsecond of a second to the first of
    the next: its window is 10 days and one second long. *)
Lemma validity_window_is_not_ten_days :
  returned_with
    (sign_issue Demo.backend Demo.csr Demo.subjectDN Demo.subjectAltNames
       Demo.email Demo.world)
    (fun iss =>
       cert_not_valid_before (ca_cert iss) = (1700000000 - 432000) * 1000000 /\
       cert_not_valid_after (ca_cert iss) = (1700000001 + 432000) * 1000000 /\
       cert_not_valid_after (ca_cert iss) - cert_not_valid_before (ca_cert iss)
       = days 10 + 1000000 /\
       cert_not_valid_after (ca_cert iss) - cert_not_valid_before (ca_cert iss)
       <> days 10) /\
  is_returned
    (sign Demo.backend Demo.csr Demo.subjectDN Demo.subjectAltNames Demo.email
       Demo.world) = true.
Proof.
  split.
  - vm_compute. repeat split; [reflexivity .. | discriminate].
  - vm_compute. reflexivity.
Qed.

(** The two readings taken for the leaf differ, by one microsecond within one
    second: the window of the leaf is 10 days long. *)
Example leaf_window_within_one_second :
  clock Demo.world 2%nat <> clock Demo.world 3%nat /\
  returned_with
    (sign_issue Demo.backend Demo.csr Demo.subjectDN Demo.subjectAltNames
       Demo.email Demo.world)
    (fun iss =>
       cert_not_valid_before (certificate iss) = (1700000001 - 432000) * 1000000 /\
       cert_not_valid_after (certificate iss) = (1700000001 + 432000) * 1000000 /\
       cert_not_valid_after (certificate iss)
         - cert_not_valid_before (certificate iss)
       = days 10).
Proof.
  split.
  - vm_compute. discriminate.
  - vm_compute. repeat split; reflexivity.
Qed.

Lemma validity_window_from_two_readings_witness :
  returned_with
    (sign Demo.backend Demo.csr Demo.subjectDN Demo.subjectAltNames Demo.email
       Demo.world)
    (fun r => exists iss w1,
       sign_issue Demo.backend Demo.csr Demo.subjectDN Demo.subjectAltNames
         Demo.email Demo.world = (Returned iss, w1) /\
       r = (bundle iss, None) /\
       cert_not_valid_before (ca_cert iss)
       = whole_seconds (clock Demo.world 0%nat - days 5) /\
       cert_not_valid_after (ca_cert iss)
       = whole_seconds (clock Demo.world 1%nat + days 5) /\
       cert_not_valid_before (certificate iss)
       = whole_seconds (clock Demo.world 2%nat - days 5) /\
       cert_not_valid_after (certificate iss)
       = whole_seconds (clock Demo.world 3%nat + days 5) /\
       cert_not_valid_after (ca_cert iss) - cert_not_valid_before (ca_cert iss)
       = days 10 + (whole_seconds (clock Demo.world 1%nat)
                    - whole_seconds (clock Demo.world 0%nat)) /\
       cert_not_valid_after (certificate iss)
         - cert_not_valid_before (certificate iss)
       = days 10 + (whole_seconds (clock Demo.world 3%nat)
                    - whole_seconds (clock Demo.world 2%nat)) /\
       (cert_not_valid_after (ca_cert iss) - cert_not_valid_before (ca_cert iss)
        = days 10
        <-> whole_seconds (clock Demo.world 0%nat)
            = whole_seconds (clock Demo.world 1%nat)) /\
       (cert_not_valid_after (certificate iss)
          - cert_not_valid_before (certificate iss)
        = days 10
        <-> whole_seconds (clock Demo.world 2%nat)
            = whole_seconds (clock Demo.world 3%nat)) /\
       cert_not_valid_before (ca_cert iss) < clock Demo.world 0%nat /\
       clock Demo.world 1%nat < cert_not_valid_after (ca_cert iss) /\
       cert_not_valid_before (certificate iss) < clock Demo.world 2%nat /\
       clock Demo.world 3%nat < cert_not_valid_after (certificate iss)).
Proof. on_returned_run (@validity_window_from_two_readings). Defined.

Lemma leaf_san_is_input_witness :
  returned_with
    (sign Demo.backend Demo.csr Demo.subjectDN Demo.subjectAltNames Demo.email
       Demo.world)
    (fun r => exists iss w1 san,
       sign_issue Demo.backend Demo.csr Demo.subjectDN Demo.subjectAltNames
         Demo.email Demo.world = (Returned iss, w1) /\
       r = (bundle iss, None) /\
       cert_extensions (certificate iss)
       = [mkExtension (SubjectAlternativeName san) false] /\
       get_values_for_type_DNSName san = Demo.subjectAltNames).
Proof. on_returned_run (@leaf_san_is_input). Defined.

(** With no alternative name the extension is present and empty. *)
Example leaf_san_empty :
  returned_with
    (sign_issue Demo.backend Demo.csr Demo.subjectDN [] Demo.email Demo.world)
    (fun iss =>
       cert_extensions (certificate iss)
       = [mkExtension (SubjectAlternativeName []) false]).
Proof. vm_compute. reflexivity. Qed.

(** The serial number of the leaf is above [2^128]: no 128-bit value, and so
    no value of the scheme of the CA. *)
Lemma leaf_serial_exceeds_128_bits :
  returned_with
    (sign_issue Demo.backend Demo.csr Demo.subjectDN Demo.subjectAltNames
       Demo.email Demo.world)
    (fun iss =>
       0 <= cert_serial_number (ca_cert iss) < 2 ^ 128 /\
       2 ^ 128 <= cert_serial_number (certificate iss)) /\
  is_returned
    (sign Demo.backend Demo.csr Demo.subjectDN Demo.subjectAltNames Demo.email
       Demo.world) = true.
Proof.
  split.
  - vm_compute. repeat split; discriminate.
  - vm_compute. reflexivity.
Qed.

Lemma serial_number_ranges_witness :
  returned_with
    (sign Demo.backend Demo.csr Demo.subjectDN Demo.subjectAltNames Demo.email
       Demo.world)
    (fun r => exists iss w1,
       sign_issue Demo.backend Demo.csr Demo.subjectDN Demo.subjectAltNames
         Demo.email Demo.world = (Returned iss, w1) /\
       r = (bundle iss, None) /\
       cert_serial_number (ca_cert iss)
       = uuid_with_version4 (map (entropy Demo.world) (seq 0 16)) /\
       0 <= cert_serial_number (ca_cert iss) < 2 ^ 128 /\
       cert_serial_number (certificate iss)
       = Z.shiftr (int_from_bytes_big (map (entropy Demo.world) (seq 16 20))) 1 /\
       0 <= cert_serial_number (certificate iss) < 2 ^ 159).
Proof. on_returned_run (@serial_number_ranges). Defined.

(** The toolchain wrote nothing: [sign] returns, and the error slot is
    [None]. *)
Lemma error_slot_is_always_None_witness :
  returned_with
    (sign Demo.backend Demo.csr Demo.subjectDN Demo.subjectAltNames Demo.email
       Demo.world_openssl_exits_1)
    (fun r =>
       snd r = None /\
       exists iss w1,
         sign_issue Demo.backend Demo.csr Demo.subjectDN Demo.subjectAltNames
           Demo.email Demo.world_openssl_exits_1 = (Returned iss, w1) /\
         fst r = bundle iss).
Proof. on_returned_run (@error_slot_is_always_None). Defined.

(* ===================================================================== *)
(** ** SHA-256 on the test vectors of FIPS 180-4 *)
(* ===================================================================== *)

Example sha256_abc :
  hashlib.sha256_hexdigest (encode "abc")
  = "ba7816bf8f01cfea414140de5dae2223b00361a396177a9cb410ff61f20015ad".
Proof. vm_compute. reflexivity. Qed.

Example sha256_empty :
  hashlib.sha256_hexdigest []
  = "e3b0c44298fc1c149afbf4c8996fb92427ae41e4649b934ca495991b7852b855".
Proof. vm_compute. reflexivity. Qed.

Example sha256_two_blocks :
  hashlib.sha256_hexdigest
    (encode "abcdbcdecdefdefgefghfghighijhijkijkljklmklmnlmnomnopnopq")
  = "248d6a61d20638b8e5c026930c3e6039a33ce45964ff2167f6ecedd419db06c1".
Proof. vm_compute. reflexivity. Qed.

(* ===================================================================== *)
(** ** The notification request *)
(* ===================================================================== *)

Section Email.
Context {P : Platform}.

Lemma bind_lift_Returned {A B} (a : A) (f : A -> M B) w :
  bind (lift (Returned a)) f w = f a w.
Proof. reflexivity. Qed.

Lemma bind_lift_Raised {A B} (e : exn) (f : A -> M B) w :
  bind (lift (@Raised A e)) f w = (Raised e, w).
Proof. reflexivity. Qed.

Lemma bind_print {B} args (f : unit -> M B) w :
  bind (print args) f w = f tt (set_stdout (stdout w ++ [args]) w).
Proof. reflexivity. Qed.

Lemma bind_requests_post {B} url headers payload (f : Response -> M B) w :
  bind (requests_post url headers payload) f w =
  match network w 0%nat (mkRequest url headers payload) with
  | Returned r => f r (set_network (advance 1 (network w)) w)
  | Raised e => (Raised e, set_network (advance 1 (network w)) w)
  end.
Proof. reflexivity. Qed.

(** X1: with a complete configuration, an answer of the sink is never an
    error, whatever its status code: the function returns, one request was
    made, and the status and the body are printed exactly when the status is
    neither 200 nor 202. *)
Theorem send_cert_issue_email_answered
    self api_key template_id from_name from_email group_id
    email domain digest w r :
  configured self api_key template_id from_name from_email group_id ->
  network w 0%nat
    (sendgrid_request api_key template_id from_name from_email group_id
       email domain digest) = Returned r ->
  exists w',
    send_cert_issue_email self email domain digest w = (Returned tt, w') /\
    network w' = advance 1 (network w) /\
    stdout w' = stdout w ++ [PyStr ("Bearer " ++ api_key)%string]
                              :: response_lines r /\
    filesystem w' = filesystem w.
Proof.
  intros (asm & Hk & Ht & Hn & He & Ha & Hint) Hnet.
  unfold sendgrid_request in Hnet.
  unfold send_cert_issue_email, int.
  rewrite Hk, Ht, Hn, He, Ha.
  rewrite bind_lift_Returned, bind_print, !bind_lift_Returned.
  rewrite Hint, bind_lift_Returned, bind_requests_post.
  cbn [network set_stdout]. rewrite Hnet.
  unfold response_lines.
  destruct ((status_code r =? 200) || (status_code r =? 202)); cbn [negb].
  - eexists. split; [reflexivity|]. cbn [network stdout filesystem set_network set_stdout].
    split; [reflexivity|]. split; reflexivity.
  - rewrite bind_print. eexists. split; [reflexivity|].
    cbn [network stdout filesystem set_network set_stdout].
    split; [reflexivity|]. split; [|reflexivity].
    rewrite <- !app_assoc. reflexivity.
Qed.

(** X2: with a complete configuration, a failure of the transport is raised
    to the caller of [send_cert_issue_email], after the one request. *)
Theorem send_cert_issue_email_transport_error
    self api_key template_id from_name from_email group_id
    email domain digest w e :
  configured self api_key template_id from_name from_email group_id ->
  network w 0%nat
    (sendgrid_request api_key template_id from_name from_email group_id
       email domain digest) = Raised e ->
  exists w',
    send_cert_issue_email self email domain digest w = (Raised e, w') /\
    network w' = advance 1 (network w) /\
    stdout w' = stdout w ++ [[PyStr ("Bearer " ++ api_key)%string]].
Proof.
  intros (asm & Hk & Ht & Hn & He & Ha & Hint) Hnet.
  unfold sendgrid_request in Hnet.
  unfold send_cert_issue_email, int.
  rewrite Hk, Ht, Hn, He, Ha.
  rewrite bind_lift_Returned, bind_print, !bind_lift_Returned.
  rewrite Hint, bind_lift_Returned, bind_requests_post.
  cbn [network set_stdout]. rewrite Hnet.
  eexists. split; [reflexivity|]. split; reflexivity.
Qed.

Lemma sendgrid_raises_KeyError self key e :
  sendgrid self key = Raised e -> exists k, e = KeyError k.
Proof.
  unfold sendgrid, getitem, obind.
  destruct (config self !! "sendgrid") as [section|].
  - destruct (section !! key).
    + discriminate.
    + intros H. inversion H. exists key. reflexivity.
  - intros H. inversion H. exists "sendgrid". reflexivity.
Qed.

(** What [send_cert_issue_email] does to the world, whatever it finds in the
    configuration and whatever the sink answers: at most one request, lines
    added to the standard output, nothing else. *)
Lemma send_cert_issue_email_frame self email domain digest w :
  (network (snd (send_cert_issue_email self email domain digest w)) = network w
   \/ network (snd (send_cert_issue_email self email domain digest w))
      = advance 1 (network w)) /\
  filesystem (snd (send_cert_issue_email self email domain digest w))
  = filesystem w /\
  exists lines,
    stdout (snd (send_cert_issue_email self email domain digest w))
    = stdout w ++ lines.
Proof.
  unfold send_cert_issue_email, int.
  destruct (sendgrid self "api_key") as [k|e];
    [rewrite bind_lift_Returned, bind_print
    | rewrite bind_lift_Raised; split; [left; reflexivity|];
      split; [reflexivity|]; exists []; rewrite app_nil_r; reflexivity].
  rewrite bind_lift_Returned.
  destruct (sendgrid self "template_id") as [t|e];
    [rewrite bind_lift_Returned
    | rewrite bind_lift_Raised; split; [left; reflexivity|];
      split; [reflexivity|]; eexists; reflexivity].
  destruct (sendgrid self "from_name") as [n|e];
    [rewrite bind_lift_Returned
    | rewrite bind_lift_Raised; split; [left; reflexivity|];
      split; [reflexivity|]; eexists; reflexivity].
  destruct (sendgrid self "from_email") as [f|e];
    [rewrite bind_lift_Returned
    | rewrite bind_lift_Raised; split; [left; reflexivity|];
      split; [reflexivity|]; eexists; reflexivity].
  destruct (sendgrid self "asm_group_id") as [a|e];
    [rewrite bind_lift_Returned
    | rewrite bind_lift_Raised; split; [left; reflexivity|];
      split; [reflexivity|]; eexists; reflexivity].
  destruct (int_of_str a) as [g|];
    [rewrite bind_lift_Returned
    | rewrite bind_lift_Raised; split; [left; reflexivity|];
      split; [reflexivity|]; eexists; reflexivity].
  rewrite bind_requests_post.
  destruct (network _ _ _) as [r|e].
  - destruct (negb _).
    + rewrite bind_print. unfold print.
      cbn [snd stdout network filesystem set_stdout set_network].
      split; [right; reflexivity|]. split; [reflexivity|].
      eexists. rewrite <- !app_assoc. reflexivity.
    + unfold ret. cbn [snd stdout network filesystem set_stdout set_network].
      split; [right; reflexivity|]. split; [reflexivity|].
      eexists. reflexivity.
  - cbn [snd stdout network filesystem set_stdout set_network].
    split; [right; reflexivity|]. split; [reflexivity|].
    eexists. reflexivity.
Qed.

(** X3: with an incomplete configuration (a missing section, a missing key,
    a group id that is no integer) the function raises [KeyError] or
    [ValueError], and no request is made. *)
Theorem send_cert_issue_email_unconfigured self email domain digest w :
  (forall api_key template_id from_name from_email group_id,
     ~ configured self api_key template_id from_name from_email group_id) ->
  exists e w',
    send_cert_issue_email self email domain digest w = (Raised e, w') /\
    network w' = network w /\
    ((exists key, e = KeyError key) \/ (exists msg, e = ValueError msg)).
Proof.
  intros Hnot. unfold send_cert_issue_email, int.
  destruct (sendgrid self "api_key") as [k|e] eqn:Hk;
    [rewrite bind_lift_Returned, bind_print, bind_lift_Returned
    | rewrite bind_lift_Raised; eexists _, _; split; [reflexivity|];
      split; [reflexivity|]; left; exact (sendgrid_raises_KeyError _ _ _ Hk)].
  destruct (sendgrid self "template_id") as [t|e] eqn:Ht;
    [rewrite bind_lift_Returned
    | rewrite bind_lift_Raised; eexists _, _; split; [reflexivity|];
      split; [reflexivity|]; left; exact (sendgrid_raises_KeyError _ _ _ Ht)].
  destruct (sendgrid self "from_name") as [n|e] eqn:Hn;
    [rewrite bind_lift_Returned
    | rewrite bind_lift_Raised; eexists _, _; split; [reflexivity|];
      split; [reflexivity|]; left; exact (sendgrid_raises_KeyError _ _ _ Hn)].
  destruct (sendgrid self "from_email") as [f|e] eqn:Hf;
    [rewrite bind_lift_Returned
    | rewrite bind_lift_Raised; eexists _, _; split; [reflexivity|];
      split; [reflexivity|]; left; exact (sendgrid_raises_KeyError _ _ _ Hf)].
  destruct (sendgrid self "asm_group_id") as [a|e] eqn:Ha;
    [rewrite bind_lift_Returned
    | rewrite bind_lift_Raised; eexists _, _; split; [reflexivity|];
      split; [reflexivity|]; left; exact (sendgrid_raises_KeyError _ _ _ Ha)].
  destruct (int_of_str a) as [g|] eqn:Hg.
  - exfalso. apply (Hnot k t n f g). exists a. auto 10.
  - rewrite bind_lift_Raised. eexists _, _. split; [reflexivity|].
    split; [reflexivity|]. right. eexists. reflexivity.
Qed.

End Email.

(* ===================================================================== *)
(** ** Temporary files: what the toolchain sees, and what is left *)
(* ===================================================================== *)

Section Cleanup.
Context {P : Platform}.

Lemma same_outside_files_refl w : same_outside_files w w.
Proof. repeat split. Qed.

Lemma same_outside_files_trans w1 w2 w3 :
  same_outside_files w1 w2 -> same_outside_files w2 w3 ->
  same_outside_files w1 w3.
Proof.
  intros (a1 & a2 & a3 & a4 & a5 & a6) (b1 & b2 & b3 & b4 & b5 & b6).
  unfold same_outside_files.
  rewrite b1, b2, b3, b4, b5, b6, a1, a2, a3, a4, a5, a6. repeat split.
Qed.

Lemma NamedTemporaryFile_frame w f w' :
  NamedTemporaryFile w = (Returned f, w') -> same_outside_files w w'.
Proof.
  unfold NamedTemporaryFile. intros H.
  apply bind_returned in H as (file & w1 & Hm & H).
  apply ret_returned in H as [_ ->].
  apply mkstemp_inner_returned in Hm as [_ [k ->]].
  repeat split.
Qed.

Lemma file_flush_frame f w f' w' :
  file_flush f w = (Returned f', w') -> same_outside_files w w'.
Proof. unfold file_flush. intros H. inversion H. repeat split. Qed.

Lemma write_certfiles_frame certs : forall files args w fa w',
  write_certfiles certs files args w = (Returned fa, w') ->
  same_outside_files w w'.
Proof.
  induction certs as [|cert certs IH]; intros files args w fa w' H.
  - apply ret_returned in H as [_ ->]. apply same_outside_files_refl.
  - rewrite write_certfiles_cons in H.
    apply bind_returned in H as (f & w1 & Hf & H).
    apply bind_returned in H as (f' & w2 & Hflush & H).
    apply NamedTemporaryFile_frame in Hf.
    apply file_flush_frame in Hflush.
    apply IH in H.
    eapply same_outside_files_trans; [|exact H].
    eapply same_outside_files_trans; [exact Hf | exact Hflush].
Qed.

(** Closing always returns; the closed files are gone, the others are as
    they were. *)
Lemma close_files_returns files : forall w,
  exists w',
    close_files files w = (Returned tt, w') /\
    same_outside_files w w' /\
    (forall path, path ∈ map f_name files -> filesystem w' !! path = None) /\
    (forall path, path ∉ map f_name files ->
       filesystem w' !! path = filesystem w !! path).
Proof.
  induction files as [|f files IH]; intros w.
  - exists w. split; [reflexivity|]. split; [apply same_outside_files_refl|].
    split; [intros path Hin; inversion Hin | reflexivity].
  - destruct (IH (set_filesystem
                    (delete (f_name f)
                       (<[f_name f :=
                            default [] (filesystem w !! f_name f) ++ f_buffer f]>
                          (filesystem w))) w))
      as (w' & Hrun & Hsame & Hgone & Hkept).
    exists w'. split; [exact Hrun|].
    split; [exact Hsame|].
    cbn [filesystem set_filesystem map] in *.
    split.
    + intros path Hin.
      destruct (decide (path ∈ map f_name files)) as [Hin'|Hout].
      * apply Hgone. exact Hin'.
      * rewrite (Hkept path Hout).
        apply elem_of_cons in Hin as [->|Hin]; [|contradiction].
        apply lookup_delete_eq.
    + intros path Hout. apply not_elem_of_cons in Hout as [Hne Hout].
      rewrite (Hkept path Hout).
      rewrite lookup_delete_ne by (intros Heq; apply Hne; symmetry; exact Heq).
      apply lookup_insert_ne. intros Heq. apply Hne. symmetry. exact Heq.
Qed.

(** A run of [create_fullchain] that returned, in full. *)
Lemma create_fullchain_run self certs w out w' :
  create_fullchain self certs w = (Returned out, w') ->
  exists names fs proc,
    NoDup names /\
    (forall name, name ∈ names -> filesystem w !! name = None) /\
    mapM (fun name => fs !! name) names = Some certs /\
    (forall path, path ∉ names -> fs !! path = filesystem w !! path) /\
    programs w (openssl_command (certfile_arguments names)) fs = Returned proc /\
    out = proc_stdout proc /\
    filesystem w' = filesystem w /\
    clock w' = clock w /\ entropy w' = entropy w /\ keygen w' = keygen w /\
    programs w' = programs w /\ network w' = network w /\
    stdout w' = stdout w ++
      [[PyStr "certfile_args:"; PyStrList (certfile_arguments names)];
       [PyStr "combined fullchain:"; PyBytes out]].
Proof.
  unfold create_fullchain. intros H.
  apply bind_returned in H as ([files args] & w1 & Hw & H).
  pose proof (write_certfiles_frame _ _ _ _ _ _ Hw)
    as (Hc1 & He1 & Hk1 & Hp1 & Hn1 & Hs1).
  apply write_certfiles_returned in Hw
    as (names & -> & Hfiles & Hnodup & Hnew & Hread & Hframe & _).
  cbn [fst snd map app] in H, Hfiles.
  apply bind_returned in H as (u & w2 & Hprint & H).
  apply print_returned in Hprint as ->.
  apply bind_returned in H as (proc & w3 & Hproc & H).
  unfold Popen in Hproc. inversion Hproc as [[Hrun Hw3]]. subst w3. clear Hproc.
  apply bind_returned in H as (u' & w4 & Hprint & H).
  apply print_returned in Hprint as ->.
  apply bind_returned in H as (u'' & w5 & Hclose & H).
  apply ret_returned in H as [-> ->].
  destruct (close_files_returns files
              (set_stdout
                 (stdout
                    (set_stdout
                       (stdout w1 ++
                        [[PyStr "certfile_args:";
                          PyStrList (certfile_arguments names)]]) w1) ++
                  [[PyStr "combined fullchain:"; PyBytes (stdout_read proc)]])
                 (set_stdout
                    (stdout w1 ++
                     [[PyStr "certfile_args:";
                       PyStrList (certfile_arguments names)]]) w1)))
    as (w6 & Hclose' & (Hc6 & He6 & Hk6 & Hp6 & Hn6 & Hs6) & Hgone & Hkept).
  rewrite Hclose' in Hclose. inversion Hclose. subst w6. clear Hclose.
  cbn [clock entropy keygen programs network stdout filesystem
       set_stdout] in *.
  rewrite Hfiles in Hgone, Hkept.
  exists names, (filesystem w1), proc.
  split; [exact Hnodup|]. split; [exact Hnew|]. split; [exact Hread|].
  split; [exact Hframe|].
  split; [rewrite <- Hp1; exact Hrun|]. split; [reflexivity|].
  split.
  { apply map_eq. intros path.
    destruct (decide (path ∈ names)) as [Hin|Hout].
    - rewrite (Hgone path Hin), (Hnew path Hin). reflexivity.
    - rewrite (Hkept path Hout). apply Hframe. exact Hout. }
  rewrite Hc6, He6, Hk6, Hp6, Hn6, Hs6, Hc1, He1, Hk1, Hp1, Hn1, Hs1.
  rewrite <- app_assoc.
  repeat split.
Qed.

(** X4: for any list of certificates, [create_fullchain] writes each one to
    a file of its own whose name was free, leaves every other file as it
    was, runs [openssl crl2pkcs7 -nocrl -outform DER] with one [-certfile]
    argument per certificate in the order of the list, and returns what the
    process wrote, taken as it is. *)
Theorem create_fullchain_command self certs w out w' :
  create_fullchain self certs w = (Returned out, w') ->
  exists names fs proc,
    length names = length certs /\
    NoDup names /\
    (forall name, name ∈ names -> filesystem w !! name = None) /\
    (forall i name cert,
       names !! i = Some name -> certs !! i = Some cert ->
       fs !! name = Some cert) /\
    (forall path, path ∉ names -> fs !! path = filesystem w !! path) /\
    programs w
      (["openssl"; "crl2pkcs7"; "-nocrl"; "-outform"; "DER"]
         ++ certfile_arguments names) fs
    = Returned proc /\
    out = proc_stdout proc.
Proof.
  intros H. apply create_fullchain_run in H
    as (names & fs & proc & Hnodup & Hnew & Hread & Hframe & Hproc & Hout & _).
  exists names, fs, proc.
  apply mapM_Some in Hread.
  split; [exact (Forall2_length _ _ _ Hread)|].
  split; [exact Hnodup|]. split; [exact Hnew|].
  split.
  { intros i name cert Hn Hc.
    destruct (Forall2_lookup_l _ _ _ _ _ Hread Hn) as (cert' & Hc' & Hfs).
    rewrite Hc in Hc'. inversion Hc'. subst cert'. exact Hfs. }
  split; [exact Hframe|]. split; [exact Hproc | exact Hout].
Qed.

(** X5: when [create_fullchain] returns, the files are exactly what they
    were before the call: the temporary files are gone and no other file
    was touched; nor were the clock, the entropy source or the network. *)
Theorem create_fullchain_leaves_no_file self certs w out w' :
  create_fullchain self certs w = (Returned out, w') ->
  filesystem w' = filesystem w /\
  clock w' = clock w /\ entropy w' = entropy w /\ network w' = network w.
Proof.
  intros H. apply create_fullchain_run in H
    as (names & fs & proc & _ & _ & _ & _ & _ & _ & Hfs & Hc & He & _ & _ & Hn & _).
  auto.
Qed.

End Cleanup.

(* ===================================================================== *)
(** ** The ephemeral CA *)
(* ===================================================================== *)

Section EphemeralCA.
Context {P : Platform}.

Lemma builder_sign_algorithm b key alg c :
  builder_sign b key alg = Returned c -> signature_hash_algorithm c = alg.
Proof.
  unfold builder_sign.
  destruct (b_subject_name b); [|discriminate].
  destruct (b_issuer_name b); [|discriminate].
  destruct (b_serial_number b); [|discriminate].
  destruct (b_not_valid_before b); [|discriminate].
  destruct (b_not_valid_after b); [|discriminate].
  destruct (b_public_key b); [|discriminate].
  destruct (sign_tbs key alg _) as [sig|e]; cbn [obind]; [|discriminate].
  intros H. inversion H. reflexivity.
Qed.

(** X6: the certificate returned by [generate_ephemeral_ca] is self-signed:
    subject and issuer are the same name, its public key is the public key
    of the private key returned with it, that private key made its
    signature, with SHA-256; its only extension is a critical basic
    constraint [ca=True] without path length; one key was generated, with
    public exponent 65537 and 2048 bits. *)
Theorem generate_ephemeral_ca_self_signed self w cert key w' :
  generate_ephemeral_ca self w = (Returned (cert, key), w') ->
  keygen w 0%nat 65537 2048 = Returned key /\
  cert_issuer cert = cert_subject cert /\
  cert_public_key cert = private_public_key key /\
  sign_tbs key SHA256 (tbs_certificate cert) = Returned (signature cert) /\
  signature_hash_algorithm cert = SHA256 /\
  cert_extensions cert = [mkExtension (BasicConstraints true None) true].
Proof.
  intros H.
  pose proof (generate_ephemeral_ca_returned _ _ _ _ _ H)
    as (Hkey & Hs & Hi & Hk & _ & _ & _ & He & _).
  split; [exact Hkey|]. split; [rewrite Hi, Hs; reflexivity|].
  split; [exact Hk|].
  unfold generate_ephemeral_ca in H.
  repeat split_bind H.
  apply ret_returned in H as [H _]. inversion H; subst; clear H.
  split; [exact (proj2 (proj2 (proj2 (proj2 (proj2 (proj2 (proj2
            (builder_sign_returned _ _ _ _ Hm0))))))))|].
  split; [exact (builder_sign_algorithm _ _ _ _ Hm0) | exact He].
Qed.

(** The version and the variant survive in [UUID(bytes=b, version=4).int]. *)
Lemma uuid_with_version4_bits b :
  Z.land (Z.shiftr (uuid_with_version4 b) 76) 15 = 4 /\
  Z.land (Z.shiftr (uuid_with_version4 b) 62) 3 = 2.
Proof.
  unfold uuid_with_version4. cbv zeta.
  set (i := int_from_bytes_big b).
  split; apply Z.bits_inj'; intros n Hn.
  - rewrite Z.land_spec, Z.shiftr_spec by lia.
    rewrite Z.lor_spec, Z.land_spec, Z.lor_spec, Z.land_spec, !Z.lnot_spec by lia.
    destruct (Z.lt_ge_cases n 4) as [Hlt|Hge].
    + assert (Hcases : n = 0 \/ n = 1 \/ n = 2 \/ n = 3) by lia.
      destruct Hcases as [-> | [-> | [-> | ->]]]; cbn [Z.add];
        destruct (Z.testbit i _); reflexivity.
    + assert (Hn4 : 0 <= 4 <= n) by lia.
      assert (H15 : 0 <= 15 < 2 ^ 4) by (split; [lia | reflexivity]).
      assert (H4 : 0 <= 4 < 2 ^ 4) by (split; [lia | reflexivity]).
      rewrite (bits_of_below_pow2 4 15 n H15 Hn4).
      rewrite (bits_of_below_pow2 4 4 n H4 Hn4).
      apply andb_false_r.
  - rewrite Z.land_spec, Z.shiftr_spec by lia.
    rewrite Z.lor_spec, Z.land_spec, Z.lor_spec, Z.land_spec, !Z.lnot_spec by lia.
    destruct (Z.lt_ge_cases n 2) as [Hlt|Hge].
    + assert (Hcases : n = 0 \/ n = 1) by lia.
      destruct Hcases as [-> | ->]; cbn [Z.add];
        destruct (Z.testbit i _); reflexivity.
    + assert (Hn2 : 0 <= 2 <= n) by lia.
      assert (H3 : 0 <= 3 < 2 ^ 2) by (split; [lia | reflexivity]).
      assert (H2 : 0 <= 2 < 2 ^ 2) by (split; [lia | reflexivity]).
      rewrite (bits_of_below_pow2 2 3 n H3 Hn2).
      rewrite (bits_of_below_pow2 2 2 n H2 Hn2).
      apply andb_false_r.
Qed.

(** X7: the serial number of the CA carries version 4 and the RFC 4122
    variant of its UUID, and is strictly positive. *)
Theorem ca_serial_is_uuid4 self w cert key w' :
  generate_ephemeral_ca self w = (Returned (cert, key), w') ->
  Z.land (Z.shiftr (cert_serial_number cert) 76) 15 = 4 /\
  Z.land (Z.shiftr (cert_serial_number cert) 62) 3 = 2 /\
  0 < cert_serial_number cert.
Proof.
  intros H.
  pose proof (generate_ephemeral_ca_returned _ _ _ _ _ H)
    as (_ & _ & _ & _ & _ & _ & Hn & _).
  rewrite Hn.
  destruct (uuid_with_version4_bits (map (entropy w) (seq 0 16)))
    as [Hversion Hvariant].
  split; [exact Hversion|]. split; [exact Hvariant|].
  pose proof (uuid_with_version4_range (map (entropy w) (seq 0 16))
                (map_seq_length _ _ _)) as [Hlo _].
  destruct (Z.eq_dec (uuid_with_version4 (map (entropy w) (seq 0 16))) 0)
    as [Hz|Hnz]; [|lia].
  rewrite Hz in Hversion. discriminate Hversion.
Qed.

End EphemeralCA.

(* ===================================================================== *)
(** ** What a call of [sign] leaves behind *)
(* ===================================================================== *)

Section SignEffects.
Context {P : Platform}.

Lemma set_network_same w : set_network (network w) w = w.
Proof. destruct w. reflexivity. Qed.

(** A statement that ignores the network leaves it as it was. *)
Lemma ignores_network_keeps {A} (m : M A) w :
  ignores_network m -> network (snd (m w)) = network w.
Proof.
  intros H. specialize (H (network w) w). rewrite set_network_same in H.
  rewrite H at 1. reflexivity.
Qed.

(** The effects of a run of the pipeline that returned. *)
Lemma sign_issue_effects self csr subjectDN subjectAltNames email w iss w' :
  sign_issue self csr subjectDN subjectAltNames email w = (Returned iss, w') ->
  filesystem w' = filesystem w /\
  network w' = network w /\
  clock w' = advance 4 (clock w) /\
  entropy w' = advance 36 (entropy w) /\
  keygen w' = advance 1 (keygen w) /\
  exists names,
    stdout w' = stdout w ++
      [[PyStr "csr:"; PyBytes csr];
       [PyStr "subjectDN:"; PyStr subjectDN];
       [PyStr "subjectAltNames:"; PyStrList subjectAltNames];
       [PyStr "email:"; PyStr email];
       [PyStr "certfile_args:"; PyStrList (certfile_arguments names)];
       [PyStr "combined fullchain:"; PyBytes (bundle iss)];
       [PyStr "bundle:"; PyBytes (bundle iss)];
       [PyStr "TLSA:";
        PyStr ("_443._tcp." ++ subjectDN ++ ". TLSA 3 1 1 "
               ++ tlsa_digest iss)%string]].
Proof.
  unfold sign_issue. intros H.
  do 4 split_bind H.
  split_bind_as H csr_obj Hcsr.
  split_bind H.
  split_bind_as H ca Hgen. destruct ca as [ca key].
  apply generate_ephemeral_ca_returned in Hgen
    as (_ & _ & _ & _ & _ & _ & _ & _ & ->).
  simpl_world.
  do 11 split_bind H.
  split_bind_as H leaf Hsign.
  split_bind_as H out Hchain.
  apply create_fullchain_run in Hchain
    as (names & fs & proc & _ & _ & _ & _ & _ & Hout & Hfs & Hc & He & Hk
        & _ & Hn & Hs).
  simpl_world.
  do 2 split_bind H.
  apply ret_returned in H as [-> ->].
  cbn [filesystem network clock entropy keygen stdout set_stdout
       bundle tlsa_digest].
  rewrite Hfs, Hn, Hc, He, Hk, Hs.
  split; [reflexivity|]. split; [reflexivity|]. split; [reflexivity|].
  split; [reflexivity|]. split; [reflexivity|].
  exists names. rewrite <- !app_assoc. reflexivity.
Qed.

(** X8: a call of [sign] makes at most one request to the sink, and none
    when it raises: nothing is notified unless the whole pipeline went
    through. *)
Theorem sign_notifies_at_most_once
    self csr subjectDN subjectAltNames email w :
  (network (snd (sign self csr subjectDN subjectAltNames email w)) = network w
   \/ network (snd (sign self csr subjectDN subjectAltNames email w))
      = advance 1 (network w)) /\
  (forall e,
     fst (sign self csr subjectDN subjectAltNames email w) = Raised e ->
     network (snd (sign self csr subjectDN subjectAltNames email w))
     = network w).
Proof.
  pose proof (ignores_network_keeps _ w
    (ignores_network_sign_issue self csr subjectDN subjectAltNames email))
    as Hpipe.
  unfold sign, bind at 1 3 5 7.
  destruct (sign_issue self csr subjectDN subjectAltNames email w)
    as [[iss|e] w1]; cbn [snd] in Hpipe.
  - pose proof (send_cert_issue_email_frame self email subjectDN
                  (tlsa_digest iss) w1) as (Hnet & _ & _).
    unfold bind, try_except.
    destruct (send_cert_issue_email self email subjectDN (tlsa_digest iss) w1)
      as [[[]|e] w2]; cbn [snd fst] in *.
    + split; [rewrite <- Hpipe; exact Hnet | discriminate].
    + unfold print, ret. cbn [snd fst network set_stdout].
      split; [rewrite <- Hpipe; exact Hnet | discriminate].
  - cbn [snd fst]. split; [left; exact Hpipe | intros _ _; exact Hpipe].
Qed.

(** X9: when [sign] returns, the files are exactly what they were before
    the call. *)
Theorem sign_leaves_no_file
    self csr subjectDN subjectAltNames email w r w' :
  sign self csr subjectDN subjectAltNames email w = (Returned r, w') ->
  filesystem w' = filesystem w.
Proof.
  unfold sign. intros H.
  apply bind_returned in H as (iss & w1 & Hiss & H).
  apply sign_issue_effects in Hiss as (Hfs & _).
  apply bind_returned in H as (u & w2 & Htry & H).
  apply ret_returned in H as [_ ->].
  pose proof (send_cert_issue_email_frame self email subjectDN
                (tlsa_digest iss) w1) as (_ & Hsend & _).
  unfold try_except in Htry.
  destruct (send_cert_issue_email self email subjectDN (tlsa_digest iss) w1)
    as [[u'|e] w3]; cbn [snd] in Hsend.
  - inversion Htry; subst. rewrite Hsend. exact Hfs.
  - apply print_returned in Htry as ->. cbn [filesystem set_stdout].
    rewrite Hsend. exact Hfs.
Qed.

End SignEffects.

(* ===================================================================== *)
(** ** Failures before the bundle, and what [sign] prints *)
(* ===================================================================== *)

Section SignFailures.
Context {P : Platform}.

Lemma bind_generate_private_key {B} e bits (f : PrivateKey -> M B) w :
  bind (generate_private_key e bits) f w =
  match keygen w 0%nat e bits with
  | Returned k => f k (set_keygen (advance 1 (keygen w)) w)
  | Raised err => (Raised err, set_keygen (advance 1 (keygen w)) w)
  end.
Proof. reflexivity. Qed.

Lemma bind_bind {A B C} (m : M A) (f : A -> M B) (g : B -> M C) w :
  bind (bind m f) g w = bind m (fun a => bind (f a) g) w.
Proof. unfold bind. destruct (m w) as [[a|e] w1]; reflexivity. Qed.


(** X11: a failure of the key generator is raised by [sign] as it is; the
    clock was not read, no entropy was drawn, no file was written and no
    request was made. *)
Theorem sign_raises_key_generation_error
    self csr subjectDN subjectAltNames email w csr_obj e :
  parse_der_csr csr = Some csr_obj ->
  accepts_name_attribute COMMON_NAME subjectDN = true ->
  keygen w 0%nat 65537 2048 = Raised e ->
  exists w',
    sign self csr subjectDN subjectAltNames email w = (Raised e, w') /\
    clock w' = clock w /\ entropy w' = entropy w /\
    filesystem w' = filesystem w /\ network w' = network w.
Proof.
  intros Hparse Hcn Hkey.
  unfold sign, sign_issue, load_der_x509_csr, new_NameAttribute at 1,
    generate_ephemeral_ca.
  rewrite Hparse, Hcn.
  rewrite bind_bind, bind_print, bind_bind, bind_print.
  rewrite bind_bind, bind_print, bind_bind, bind_print.
  rewrite bind_bind, bind_lift_Returned, bind_bind, bind_lift_Returned.
  rewrite !bind_bind, bind_generate_private_key.
  cbn [keygen set_stdout]. rewrite Hkey.
  eexists. split; [reflexivity|].
  split; [reflexivity|]. split; [reflexivity|]. split; reflexivity.
Qed.

(** X12: when the notification raises, [sign] prints the exception as its
    last line and returns the bundle. *)
Theorem sign_prints_notification_error
    self csr subjectDN subjectAltNames email w iss w1 e w2 :
  sign_issue self csr subjectDN subjectAltNames email w = (Returned iss, w1) ->
  send_cert_issue_email self email subjectDN (tlsa_digest iss) w1
  = (Raised e, w2) ->
  sign self csr subjectDN subjectAltNames email w
  = (Returned (bundle iss, None), set_stdout (stdout w2 ++ [[PyExn e]]) w2).
Proof.
  intros Hiss Hsend. unfold sign, bind at 1. rewrite Hiss.
  unfold bind, try_except. rewrite Hsend. reflexivity.
Qed.

(** X13: [sign] prints the TLSA record of the subject: port 443 over TCP,
    usage 3, selector 1, matching type 1, and the digest of the leaf's
    public key. *)
Theorem sign_prints_tlsa_record
    self csr subjectDN subjectAltNames email w r w' :
  sign self csr subjectDN subjectAltNames email w = (Returned r, w') ->
  exists iss w1 before after,
    sign_issue self csr subjectDN subjectAltNames email w = (Returned iss, w1) /\
    stdout w' =
      before ++
      [PyStr "TLSA:";
       PyStr ("_443._tcp." ++ subjectDN ++ ". TLSA 3 1 1 "
              ++ hashlib.sha256_hexdigest
                   (public_bytes_spki_der
                      (cert_public_key (certificate iss))))%string]
      :: after.
Proof.
  unfold sign. intros H.
  apply bind_returned in H as (iss & w1 & Hiss & H).
  pose proof (sign_issue_effects _ _ _ _ _ _ _ _ Hiss)
    as (_ & _ & _ & _ & _ & names & Hout).
  pose proof (iss_digest _ _ _ _ _ (sign_issue_returned _ _ _ _ _ _ _ _ Hiss))
    as Hdigest.
  apply bind_returned in H as (u & w2 & Htry & H).
  apply ret_returned in H as [_ ->].
  pose proof (send_cert_issue_email_frame self email subjectDN
                (tlsa_digest iss) w1) as (_ & _ & lines & Hlines).
  assert (Hw2 : exists after, stdout w2 = stdout w1 ++ after).
  { unfold try_except in Htry.
    destruct (send_cert_issue_email self email subjectDN (tlsa_digest iss) w1)
      as [[u'|e] w3]; cbn [snd] in Hlines.
    - inversion Htry; subst. exists lines. exact Hlines.
    - apply print_returned in Htry as ->. cbn [stdout set_stdout].
      exists (lines ++ [[PyExn e]]). rewrite Hlines, app_assoc. reflexivity. }
  destruct Hw2 as [after Hafter].
  exists iss, w1,
    (stdout w ++
       [[PyStr "csr:"; PyBytes csr];
        [PyStr "subjectDN:"; PyStr subjectDN];
        [PyStr "subjectAltNames:"; PyStrList subjectAltNames];
        [PyStr "email:"; PyStr email];
        [PyStr "certfile_args:"; PyStrList (certfile_arguments names)];
        [PyStr "combined fullchain:"; PyBytes (bundle iss)];
        [PyStr "bundle:"; PyBytes (bundle iss)]]),
    after.
  split; [exact Hiss|].
  rewrite Hafter, Hout, <- Hdigest, <- !app_assoc. reflexivity.
Qed.

(** X14: whenever the configuration holds an API key,
    [send_cert_issue_email] prints it, as its first line, whatever happens
    next. *)
Theorem send_cert_issue_email_prints_api_key
    self email domain digest w api_key :
  sendgrid self "api_key" = Returned api_key ->
  exists lines,
    stdout (snd (send_cert_issue_email self email domain digest w))
    = stdout w ++ [PyStr ("Bearer " ++ api_key)%string] :: lines.
Proof.
  intros Hk. unfold send_cert_issue_email, int. rewrite Hk.
  rewrite bind_lift_Returned, bind_print, bind_lift_Returned.
  destruct (sendgrid self "template_id") as [t|e];
    [rewrite bind_lift_Returned
    | rewrite bind_lift_Raised; eexists; reflexivity].
  destruct (sendgrid self "from_name") as [n|e];
    [rewrite bind_lift_Returned
    | rewrite bind_lift_Raised; eexists; reflexivity].
  destruct (sendgrid self "from_email") as [f|e];
    [rewrite bind_lift_Returned
    | rewrite bind_lift_Raised; eexists; reflexivity].
  destruct (sendgrid self "asm_group_id") as [a|e];
    [rewrite bind_lift_Returned
    | rewrite bind_lift_Raised; eexists; reflexivity].
  destruct (int_of_str a) as [g|];
    [rewrite bind_lift_Returned
    | rewrite bind_lift_Raised; eexists; reflexivity].
  rewrite bind_requests_post.
  destruct (network _ _ _) as [r|e].
  - destruct (negb _).
    + rewrite bind_print. unfold print.
      cbn [snd stdout set_stdout set_network].
      eexists. rewrite <- !app_assoc. reflexivity.
    + unfold ret. cbn [snd stdout set_stdout set_network].
      eexists. reflexivity.
  - cbn [snd stdout set_stdout set_network]. eexists. reflexivity.
Qed.

End SignFailures.

(* ===================================================================== *)
(** ** The further properties on the small platform *)
(* ===================================================================== *)

(** A run on the small platform is evaluated; when it returned, [tac] closes
    the goal from the equation of the run. *)
Ltac on_returned tac :=
  unfold returned_with;
  lazymatch goal with
  | |- match ?run with _ => _ end =>
      let Hret := fresh "Hret" in
      let E := fresh "E" in
      assert (Hret : is_returned run = true) by (vm_compute; reflexivity);
      destruct run as [[r|e] w'] eqn:E; [ tac E | discriminate Hret ]
  end.

Lemma demo_configured :
  @configured Demo.platform Demo.backend "SG.key" "d-1" "Handshake Tools"
    "noreply@example.test" 42.
Proof.
  exists "42".
  split; [vm_compute; reflexivity|]. split; [vm_compute; reflexivity|].
  split; [vm_compute; reflexivity|]. split; [vm_compute; reflexivity|].
  split; vm_compute; reflexivity.
Qed.

Lemma send_cert_issue_email_answered_witness :
  @configured Demo.platform Demo.backend "SG.key" "d-1" "Handshake Tools"
    "noreply@example.test" 42 /\
  network demo_world_sink_rejects 0%nat (demo_request "00")
  = Returned (mkResponse 400 "Bad Request") /\
  exists w',
    send_cert_issue_email Demo.backend Demo.email Demo.subjectDN "00"
      demo_world_sink_rejects = (Returned tt, w') /\
    network w' = advance 1 (network demo_world_sink_rejects) /\
    stdout w' = stdout demo_world_sink_rejects
                ++ [PyStr "Bearer SG.key"]
                   :: response_lines (mkResponse 400 "Bad Request") /\
    filesystem w' = filesystem demo_world_sink_rejects.
Proof.
  split; [exact demo_configured|]. split; [reflexivity|].
  exact (send_cert_issue_email_answered Demo.backend _ _ _ _ _
           Demo.email Demo.subjectDN "00" demo_world_sink_rejects _
           demo_configured eq_refl).
Defined.

Lemma send_cert_issue_email_transport_error_witness :
  @configured Demo.platform Demo.backend "SG.key" "d-1" "Handshake Tools"
    "noreply@example.test" 42 /\
  network Demo.world_sink_down 0%nat (demo_request "00")
  = Raised (RequestException "connection refused") /\
  exists w',
    send_cert_issue_email Demo.backend Demo.email Demo.subjectDN "00"
      Demo.world_sink_down
    = (Raised (RequestException "connection refused"), w') /\
    network w' = advance 1 (network Demo.world_sink_down) /\
    stdout w' = stdout Demo.world_sink_down ++ [[PyStr "Bearer SG.key"]].
Proof.
  split; [exact demo_configured|]. split; [reflexivity|].
  exact (send_cert_issue_email_transport_error Demo.backend _ _ _ _ _
           Demo.email Demo.subjectDN "00" Demo.world_sink_down _
           demo_configured eq_refl).
Defined.

Lemma demo_unconfigured api_key template_id from_name from_email group_id :
  ~ @configured Demo.platform Demo.backend_unconfigured
      api_key template_id from_name from_email group_id.
Proof. intros (asm & Hk & _). vm_compute in Hk. discriminate Hk. Qed.

Lemma send_cert_issue_email_unconfigured_witness :
  (forall api_key template_id from_name from_email group_id,
     ~ @configured Demo.platform Demo.backend_unconfigured
         api_key template_id from_name from_email group_id) /\
  exists e w',
    send_cert_issue_email Demo.backend_unconfigured Demo.email Demo.subjectDN
      "00" Demo.world = (Raised e, w') /\
    network w' = network Demo.world /\
    ((exists key, e = KeyError key) \/ (exists msg, e = ValueError msg)).
Proof.
  split; [exact demo_unconfigured|].
  exact (send_cert_issue_email_unconfigured Demo.backend_unconfigured
           Demo.email Demo.subjectDN "00" Demo.world demo_unconfigured).
Defined.

Lemma create_fullchain_command_witness :
  returned_with
    (create_fullchain Demo.backend [encode "first"; encode "second";
                                    encode "third"] Demo.world)
    (fun out => exists names fs proc,
       length names
       = length [encode "first"; encode "second"; encode "third"] /\
       NoDup names /\
       (forall name, name ∈ names -> filesystem Demo.world !! name = None) /\
       (forall i name cert,
          names !! i = Some name ->
          [encode "first"; encode "second"; encode "third"] !! i = Some cert ->
          fs !! name = Some cert) /\
       (forall path, path ∉ names -> fs !! path = filesystem Demo.world !! path) /\
       programs Demo.world
         (["openssl"; "crl2pkcs7"; "-nocrl"; "-outform"; "DER"]
            ++ certfile_arguments names) fs
       = Returned proc /\
       out = proc_stdout proc).
Proof.
  on_returned ltac:(fun E => exact (create_fullchain_command _ _ _ _ _ E)).
Defined.

Lemma create_fullchain_leaves_no_file_witness :
  match create_fullchain Demo.backend [encode "first"; encode "second"]
          Demo.world with
  | (Returned _, w') =>
      filesystem w' = filesystem Demo.world /\
      clock w' = clock Demo.world /\ entropy w' = entropy Demo.world /\
      network w' = network Demo.world
  | (Raised _, _) => False
  end.
Proof.
  assert (Hret : is_returned
            (create_fullchain Demo.backend [encode "first"; encode "second"]
               Demo.world) = true) by (vm_compute; reflexivity).
  destruct (create_fullchain Demo.backend [encode "first"; encode "second"]
              Demo.world) as [[out|e] w'] eqn:E; [|discriminate Hret].
  exact (create_fullchain_leaves_no_file _ _ _ _ _ E).
Defined.

Lemma generate_ephemeral_ca_self_signed_witness :
  returned_with (generate_ephemeral_ca Demo.backend Demo.world)
    (fun ck =>
       keygen Demo.world 0%nat 65537 2048 = Returned (snd ck) /\
       cert_issuer (fst ck) = cert_subject (fst ck) /\
       cert_public_key (fst ck) = private_public_key (snd ck) /\
       sign_tbs (snd ck) SHA256 (tbs_certificate (fst ck))
       = Returned (signature (fst ck)) /\
       signature_hash_algorithm (fst ck) = SHA256 /\
       cert_extensions (fst ck)
       = [mkExtension (BasicConstraints true None) true]).
Proof.
  on_returned ltac:(fun E =>
    destruct r as [cert key];
    exact (generate_ephemeral_ca_self_signed _ _ _ _ _ E)).
Defined.

Lemma ca_serial_is_uuid4_witness :
  returned_with (generate_ephemeral_ca Demo.backend Demo.world)
    (fun ck =>
       Z.land (Z.shiftr (cert_serial_number (fst ck)) 76) 15 = 4 /\
       Z.land (Z.shiftr (cert_serial_number (fst ck)) 62) 3 = 2 /\
       0 < cert_serial_number (fst ck)).
Proof.
  on_returned ltac:(fun E =>
    destruct r as [cert key];
    exact (ca_serial_is_uuid4 _ _ _ _ _ E)).
Defined.

Lemma sign_leaves_no_file_witness :
  match sign Demo.backend Demo.csr Demo.subjectDN Demo.subjectAltNames
          Demo.email Demo.world with
  | (Returned _, w') => filesystem w' = filesystem Demo.world
  | (Raised _, _) => False
  end.
Proof.
  assert (Hret : is_returned
            (sign Demo.backend Demo.csr Demo.subjectDN Demo.subjectAltNames
               Demo.email Demo.world) = true) by (vm_compute; reflexivity).
  destruct (sign Demo.backend Demo.csr Demo.subjectDN Demo.subjectAltNames
              Demo.email Demo.world) as [[r|e] w'] eqn:E;
    [|discriminate Hret].
  exact (sign_leaves_no_file _ _ _ _ _ _ _ _ E).
Defined.


Lemma sign_raises_key_generation_error_witness :
  @parse_der_csr Demo.platform Demo.csr = Some (encode "leaf-public-key") /\
  @accepts_name_attribute Demo.platform COMMON_NAME Demo.subjectDN = true /\
  keygen demo_world_keygen_fails 0%nat 65537 2048
  = Raised (UnsupportedAlgorithm "no RSA backend") /\
  exists w',
    sign Demo.backend Demo.csr Demo.subjectDN Demo.subjectAltNames Demo.email
      demo_world_keygen_fails
    = (Raised (UnsupportedAlgorithm "no RSA backend"), w') /\
    clock w' = clock demo_world_keygen_fails /\
    entropy w' = entropy demo_world_keygen_fails /\
    filesystem w' = filesystem demo_world_keygen_fails /\
    network w' = network demo_world_keygen_fails.
Proof.
  split; [reflexivity|]. split; [reflexivity|]. split; [reflexivity|].
  exact (sign_raises_key_generation_error Demo.backend Demo.csr Demo.subjectDN
           Demo.subjectAltNames Demo.email demo_world_keygen_fails
           (encode "leaf-public-key") _ eq_refl eq_refl eq_refl).
Defined.

Lemma sign_prints_notification_error_witness :
  match sign_issue Demo.backend Demo.csr Demo.subjectDN Demo.subjectAltNames
          Demo.email Demo.world_sink_down with
  | (Returned iss, w1) =>
      match send_cert_issue_email Demo.backend Demo.email Demo.subjectDN
              (tlsa_digest iss) w1 with
      | (Raised e, w2) =>
          sign Demo.backend Demo.csr Demo.subjectDN Demo.subjectAltNames
            Demo.email Demo.world_sink_down
          = (Returned (bundle iss, None),
             set_stdout (stdout w2 ++ [[PyExn e]]) w2)
      | (Returned _, _) => False
      end
  | (Raised _, _) => False
  end.
Proof.
  assert (Hcheck :
    match sign_issue Demo.backend Demo.csr Demo.subjectDN Demo.subjectAltNames
            Demo.email Demo.world_sink_down with
    | (Returned iss, w1) =>
        negb (is_returned
                (send_cert_issue_email Demo.backend Demo.email Demo.subjectDN
                   (tlsa_digest iss) w1))
    | (Raised _, _) => false
    end = true) by (vm_compute; reflexivity).
  destruct (sign_issue Demo.backend Demo.csr Demo.subjectDN
              Demo.subjectAltNames Demo.email Demo.world_sink_down)
    as [[iss|e] w1] eqn:E; [|discriminate Hcheck].
  destruct (send_cert_issue_email Demo.backend Demo.email Demo.subjectDN
              (tlsa_digest iss) w1) as [[u|e] w2] eqn:E2;
    [discriminate Hcheck|].
  exact (sign_prints_notification_error _ _ _ _ _ _ _ _ _ _ E E2).
Defined.

Lemma sign_prints_tlsa_record_witness :
  match sign Demo.backend Demo.csr Demo.subjectDN Demo.subjectAltNames
          Demo.email Demo.world with
  | (Returned _, w') =>
      exists iss w1 before after,
        sign_issue Demo.backend Demo.csr Demo.subjectDN Demo.subjectAltNames
          Demo.email Demo.world = (Returned iss, w1) /\
        stdout w' =
          before ++
          [PyStr "TLSA:";
           PyStr ("_443._tcp." ++ Demo.subjectDN ++ ". TLSA 3 1 1 "
                  ++ hashlib.sha256_hexdigest
                       (public_bytes_spki_der
                          (cert_public_key (certificate iss))))%string]
          :: after
  | (Raised _, _) => False
  end.
Proof.
  assert (Hret : is_returned
            (sign Demo.backend Demo.csr Demo.subjectDN Demo.subjectAltNames
               Demo.email Demo.world) = true) by (vm_compute; reflexivity).
  destruct (sign Demo.backend Demo.csr Demo.subjectDN Demo.subjectAltNames
              Demo.email Demo.world) as [[r|e] w'] eqn:E;
    [|discriminate Hret].
  exact (sign_prints_tlsa_record _ _ _ _ _ _ _ _ E).
Defined.

Lemma send_cert_issue_email_prints_api_key_witness :
  sendgrid Demo.backend "api_key" = Returned "SG.key" /\
  exists lines,
    stdout (snd (send_cert_issue_email Demo.backend Demo.email Demo.subjectDN
                   "00" Demo.world_sink_down))
    = stdout Demo.world_sink_down ++ [PyStr "Bearer SG.key"] :: lines.
Proof.
  assert (Hk : sendgrid Demo.backend "api_key" = Returned "SG.key")
    by (vm_compute; reflexivity).
  split; [exact Hk|].
  exact (send_cert_issue_email_prints_api_key Demo.backend Demo.email
           Demo.subjectDN "00" Demo.world_sink_down "SG.key" Hk).
Defined.

(* ===================================================================== *)
(** ** What a call of [sign] consumes *)
(* ===================================================================== *)

Section SignConsumption.
Context {P : Platform}.

(** The notification reads neither the clock nor the entropy source, and
    generates no key. *)
Lemma send_cert_issue_email_tapes self email domain digest w :
  clock (snd (send_cert_issue_email self email domain digest w)) = clock w /\
  entropy (snd (send_cert_issue_email self email domain digest w)) = entropy w /\
  keygen (snd (send_cert_issue_email self email domain digest w)) = keygen w.
Proof.
  unfold send_cert_issue_email, int.
  destruct (sendgrid self "api_key") as [k|e];
    [rewrite bind_lift_Returned, bind_print, bind_lift_Returned
    | rewrite bind_lift_Raised; split; [|split]; reflexivity].
  destruct (sendgrid self "template_id") as [t|e];
    [rewrite bind_lift_Returned
    | rewrite bind_lift_Raised; split; [|split]; reflexivity].
  destruct (sendgrid self "from_name") as [n|e];
    [rewrite bind_lift_Returned
    | rewrite bind_lift_Raised; split; [|split]; reflexivity].
  destruct (sendgrid self "from_email") as [f|e];
    [rewrite bind_lift_Returned
    | rewrite bind_lift_Raised; split; [|split]; reflexivity].
  destruct (sendgrid self "asm_group_id") as [a|e];
    [rewrite bind_lift_Returned
    | rewrite bind_lift_Raised; split; [|split]; reflexivity].
  destruct (int_of_str a) as [g|];
    [rewrite bind_lift_Returned
    | rewrite bind_lift_Raised; split; [|split]; reflexivity].
  rewrite bind_requests_post.
  destruct (network _ _ _) as [r|e].
  - destruct (negb _).
    + rewrite bind_print. unfold print. split; [|split]; reflexivity.
    + unfold ret. split; [|split]; reflexivity.
  - split; [|split]; reflexivity.
Qed.

(** X15: a call of [sign] that returns has generated exactly one key, the
    key of the CA, has read the clock four times and has drawn 36 bytes of
    entropy: 16 for the serial number of the CA, then 20 for the serial
    number of the leaf. *)
Theorem sign_consumption
    self csr subjectDN subjectAltNames email w r w' :
  sign self csr subjectDN subjectAltNames email w = (Returned r, w') ->
  keygen w' = advance 1 (keygen w) /\
  clock w' = advance 4 (clock w) /\
  entropy w' = advance 36 (entropy w).
Proof.
  unfold sign. intros H.
  apply bind_returned in H as (iss & w1 & Hiss & H).
  apply sign_issue_effects in Hiss as (_ & _ & Hc & He & Hk & _).
  apply bind_returned in H as (u & w2 & Htry & H).
  apply ret_returned in H as [_ ->].
  pose proof (send_cert_issue_email_tapes self email subjectDN
                (tlsa_digest iss) w1) as (Hc' & He' & Hk').
  unfold try_except in Htry.
  destruct (send_cert_issue_email self email subjectDN (tlsa_digest iss) w1)
    as [[u'|e] w3]; cbn [snd] in Hc', He', Hk'.
  - inversion Htry; subst. rewrite Hc', He', Hk'. auto.
  - apply print_returned in Htry as ->. cbn [clock entropy keygen set_stdout].
    rewrite Hc', He', Hk'. auto.
Qed.

End SignConsumption.

Lemma sign_consumption_witness :
  match sign Demo.backend Demo.csr Demo.subjectDN Demo.subjectAltNames
          Demo.email Demo.world with
  | (Returned _, w') =>
      keygen w' = advance 1 (keygen Demo.world) /\
      clock w' = advance 4 (clock Demo.world) /\
      entropy w' = advance 36 (entropy Demo.world)
  | (Raised _, _) => False
  end.
Proof.
  assert (Hret : is_returned
            (sign Demo.backend Demo.csr Demo.subjectDN Demo.subjectAltNames
               Demo.email Demo.world) = true) by (vm_compute; reflexivity).
  destruct (sign Demo.backend Demo.csr Demo.subjectDN Demo.subjectAltNames
              Demo.email Demo.world) as [[r|e] w'] eqn:E;
    [|discriminate Hret].
  exact (sign_consumption _ _ _ _ _ _ _ _ E).
Defined.
